(** * pyzbar.decode: a shallow embedding of [pyzbar/pyzbar.py]

    The module is glue around the native zbar library: it checks the shape
    of the pixel buffer, creates a scanner and an image through two context
    managers, runs the native scan and walks the linked list of symbols the
    library attached to the image.

    The native library (reached through [pyzbar/wrapper.py]) is not part of
    the sources at hand; it is a parameter of the development: a record of
    functions over an abstract native world [W].  Every native call that
    takes or returns a handle is recorded in a trace, so that statements
    about handle lifetimes can be made about the code as it is written. *)

From Stdlib Require Import ZArith QArith List String Bool Lia.
From Stdlib.Strings Require Import Byte.
Import ListNotations.

Local Open Scope Z_scope.

(** ** Python-level values *)

(** [bytes]: a sequence of octets. *)
Definition bytes := list byte.

(** [len(pixels)], a Python int. *)
Definition len (b : bytes) : Z := Z.of_nat (List.length b).

(** [Decoded = namedtuple('Decoded', ['data', 'type'])] *)
Record Decoded : Type := mkDecoded { data : bytes; type : string }.

(** The messages with which this module raises [PyZbarError].
    ['Unsupported bits-per-pixel [{0}]'.format(bpp)] carries the value. *)
Inductive message : Type :=
| Could_not_create_image
| Could_not_create_decoder
| Unsupported_bits_per_pixel (bpp : Q)
| Unsupported_image_format.

(** The exceptions that can leave [decode].  [ValueError v] is the one of
    the enumeration lookup [ZBarSymbol(v)]; [ValueError_unpack n] is the
    ValueError of line 94 on a tuple of [n] items ("not enough values to
    unpack", "too many values to unpack"); [IndexError] is the one of the
    indexing on line 90. *)
Inductive exn : Type :=
| PyZbarError (msg : message)
| ZeroDivisionError
| KeyError (key : string)
| ValueError (v : Z)
| ValueError_unpack (n : nat)
| IndexError.

Inductive outcome (A : Type) : Type :=
| Return (a : A)
| Raise (e : exn).
Arguments Return {A} a.
Arguments Raise {A} e.

(** [FOURCC = {'L800': 808466521, 'GRAY': 1497715271}] *)
Definition FOURCC : list (string * Z) :=
  [ ("L800"%string, 808466521); ("GRAY"%string, 1497715271) ].

Fixpoint getitem (d : list (string * Z)) (k : string) : option Z :=
  match d with
  | [] => None
  | (k', v) :: d' => if String.eqb k' k then Some v else getitem d' k
  end.

(** An argument of [decode] from which lines 86-94 bind [pixels], [width]
    and [height] without raising.  The three shapes the source tells apart
    by the name of the argument's type; for the two library types the
    fields hold what the source reads from the object.  The arguments on
    which these lines raise are those of [Argument] below that [read]
    refuses. *)
Inductive Image : Type :=
| PIL_Image (L_tobytes : bytes) (size : Z * Z)
    (* image.convert('L').tobytes(), image.size = (width, height) *)
| numpy_ndarray (chan0_tobytes : bytes) (shape : Z * Z)
    (* image[:, :, 0].astype('uint8').tobytes(), image.shape[:2] = (height, width) *)
| Tuple (pixels : bytes) (width height : Z).

(** Lines 86-94 on such an argument: [pixels, width, height]. *)
Definition unpack (image : Image) : bytes * Z * Z :=
  match image with
  | PIL_Image pixels (width, height) => (pixels, width, height)
  | numpy_ndarray pixels (height, width) => (pixels, width, height)
  | Tuple pixels width height => (pixels, width, height)
  end.

(** The number of items of a tuple that does not have three. *)
Inductive arity : Type :=
| no_item
| one_item
| two_items
| more_items (beyond_four : nat).

Definition items (a : arity) : nat :=
  match a with
  | no_item => 0
  | one_item => 1
  | two_items => 2
  | more_items k => 4 + k
  end.

(** The objects [decode] is documented to take: a PIL image, a numpy array
    with its shape (of any number of axes), or a tuple, of three items or
    not. *)
Inductive Argument : Type :=
| Arg_PIL (L_tobytes : bytes) (size : Z * Z)
| Arg_ndarray (shape : list Z) (chan0_tobytes : bytes)
    (* chan0_tobytes: image[:, :, 0].astype('uint8').tobytes(), where the
       indexing is defined *)
| Arg_tuple (pixels : bytes) (width height : Z)
| Arg_other_tuple (a : arity).

(** [image[:, :, 0]] is defined on an array that has a third axis, of
    length at least one. *)
Definition has_channel (shape : list Z) : bool :=
  match shape with
  | _ :: _ :: c :: _ => 0 <? c
  | _ => false
  end.

(** Lines 86-94, with the exceptions they raise: IndexError on line 90
    for an array without a first channel, ValueError on line 94 for a
    tuple that does not have three items. *)
Definition read (a : Argument) : outcome Image :=
  match a with
  | Arg_PIL pixels size => Return (PIL_Image pixels size)
  | Arg_ndarray shape pixels =>
      match shape with
      | height :: width :: _ =>
          if has_channel shape
          then Return (numpy_ndarray pixels (height, width))
          else Raise IndexError
      | _ => Raise IndexError
      end
  | Arg_tuple pixels width height => Return (Tuple pixels width height)
  | Arg_other_tuple a => Raise (ValueError_unpack (items a))
  end.

(** ** Native values *)

(** An opaque pointer ([zbar_image_scanner_t*], [zbar_image_t*]); a handle
    is false in Python exactly when it is NULL. *)
Definition handle := Z.
Definition NULL : handle := 0.

(** A node of the symbol list of an image: [value] is the int that
    [symbol.contents.value] reads (the symbol's type), [raw] the [datalen]
    decoded octets. *)
Record zbar_symbol : Type := mkSymbol { value : Z; raw : bytes }.

(** A pointer to a symbol is modelled by the NULL-terminated chain that
    starts at it: the empty chain is NULL, [zbar_symbol_next] is the tail. *)
Definition symbol_p := list zbar_symbol.

Definition zbar_symbol_next (symbol : symbol_p) : symbol_p := tl symbol.

(** [zbar_symbol_get_data]: what lies in memory at the returned [char*],
    the decoded octets followed by the terminating NUL that zbar writes. *)
Definition zbar_symbol_get_data (s : zbar_symbol) : bytes := raw s ++ [x00].

(** [zbar_symbol_get_data_length] (imported by the module, never called). *)
Definition zbar_symbol_get_data_length (s : zbar_symbol) : Z := len (raw s).

(** [ctypes.string_at(ptr)] without a size: the octets up to, and without,
    the first NUL. *)
Fixpoint string_at (mem : bytes) : bytes :=
  match mem with
  | [] => []
  | b :: mem' => if Byte.eqb b x00 then [] else b :: string_at mem'
  end.

(** The names imported from [.wrapper]: enum members, the enum lookup
    [ZBarSymbol(v).name] ([None] where Python raises ValueError) and the
    native functions, each acting on the native world. *)
Record wrapper (W : Type) : Type := mkWrapper {
  QRCODE : Z;
  CODE128 : Z;
  CFG_ENABLE : Z;
  ZBarSymbol_name : Z -> option string;
  zbar_image_scanner_create : W -> handle * W;
  zbar_image_scanner_destroy : handle -> W -> W;
  zbar_image_scanner_set_config : handle -> Z -> Z -> Z -> W -> Z * W;
  zbar_image_create : W -> handle * W;
  zbar_image_destroy : handle -> W -> W;
  zbar_image_set_format : handle -> Z -> W -> W;
  zbar_image_set_size : handle -> Z -> Z -> W -> W;
  zbar_image_set_data : handle -> bytes -> Z -> W -> W;
  zbar_scan_image : handle -> handle -> W -> Z * W;
  zbar_image_first_symbol : handle -> W -> symbol_p
}.
Arguments QRCODE {W} _.
Arguments CODE128 {W} _.
Arguments CFG_ENABLE {W} _.
Arguments ZBarSymbol_name {W} _ _.
Arguments zbar_image_scanner_create {W} _ _.
Arguments zbar_image_scanner_destroy {W} _ _ _.
Arguments zbar_image_scanner_set_config {W} _ _ _ _ _ _.
Arguments zbar_image_create {W} _ _.
Arguments zbar_image_destroy {W} _ _ _.
Arguments zbar_image_set_format {W} _ _ _ _.
Arguments zbar_image_set_size {W} _ _ _ _ _.
Arguments zbar_image_set_data {W} _ _ _ _ _.
Arguments zbar_scan_image {W} _ _ _ _.
Arguments zbar_image_first_symbol {W} _ _ _.

(** ** The trace of native calls *)

Inductive event : Type :=
| Ev_scanner_create (ret : handle)
| Ev_scanner_destroy (scanner : handle)
| Ev_set_config (scanner : handle) (symbology config val : Z)
| Ev_image_create (ret : handle)
| Ev_image_destroy (img : handle)
| Ev_set_format (img : handle) (fourcc : Z)
| Ev_set_size (img : handle) (width height : Z)
| Ev_set_data (img : handle) (length : Z)
| Ev_scan_image (scanner img : handle) (ret : Z)
| Ev_first_symbol (img : handle) (ret : symbol_p)
| Ev_symbol_read (s : zbar_symbol).

Definition trace := list event.

(** ** Python 3 true division, as far as [decode] observes it

    [a / b] on ints raises ZeroDivisionError for [b = 0]; otherwise Python
    holds the double nearest to the quotient.  The model holds the quotient
    itself, which stands for that double.  On the test of line 98 the two
    agree for every buffer shorter than 2^53 octets: the double nearest to
    [8 * len(pixels) / (width * height)] is 8 exactly when the quotient is.
    They differ in the value shown by the exception of line 99 when the
    quotient is not a double (8/3 is shown as 2.6666666666666665), so
    nothing below is stated about that value beyond what holds of the
    double as well: that it is not 8, and what it is when the quotient is
    an integer. *)
Definition truediv (a b : Z) : outcome Q :=
  if b =? 0 then Raise ZeroDivisionError
  else Return (inject_Z a / inject_Z b)%Q.

(** ** The module *)

Section Pyzbar.

Context {W : Type} (lib : wrapper W).

(** Computations that act on the native world, may raise, and record the
    native calls they make. *)
Definition M (A : Type) : Type := W -> outcome A * W * trace.

Definition ret {A} (a : A) : M A := fun w => (Return a, w, []).

Definition raise {A} (e : exn) : M A := fun w => (Raise e, w, []).

Definition bind {A B} (m : M A) (f : A -> M B) : M B :=
  fun w =>
    match m w with
    | (Return a, w1, t1) =>
        match f a w1 with (r, w2, t2) => (r, w2, t1 ++ t2) end
    | (Raise e, w1, t1) => (Raise e, w1, t1)
    end.

(** [try: body finally: cleanup] *)
Definition try_finally {A} (body : M A) (cleanup : M unit) : M A :=
  fun w =>
    match body w with
    | (r, w1, t1) =>
        match cleanup w1 with
        | (Return _, w2, t2) => (r, w2, t1 ++ t2)
        | (Raise e, w2, t2) => (Raise e, w2, t1 ++ t2)
        end
    end.

Definition lift {A} (o : outcome A) : M A := fun w => (o, w, []).

(** A native call returning a value, and one returning nothing. *)
Definition call {A} (f : W -> A * W) (ev : A -> event) : M A :=
  fun w => match f w with (a, w') => (Return a, w', [ev a]) end.

Definition call_ (f : W -> W) (ev : event) : M unit :=
  fun w => (Return tt, f w, [ev]).

Definition peek {A} (f : W -> A) (ev : A -> event) : M A :=
  fun w => (Return (f w), w, [ev (f w)]).

Notation "x <- m ;; k" := (bind m (fun x => k))
  (at level 61, m at next level, right associativity).
Notation "m ;;; k" := (bind m (fun _ => k))
  (at level 61, right associativity).

(** Lines 28-48: the context manager [zbar_image], applied to the body of
    its [with] statement. *)
Definition zbar_image {A} (body : handle -> M A) : M A :=
  image <- call (zbar_image_create lib) Ev_image_create ;;
  if image =? NULL then raise (PyZbarError Could_not_create_image)
  else try_finally (body image)
         (call_ (zbar_image_destroy lib image) (Ev_image_destroy image)).

(** Lines 51-71: the context manager [zbar_image_scanner]. *)
Definition zbar_image_scanner {A} (body : handle -> M A) : M A :=
  scanner <- call (zbar_image_scanner_create lib) Ev_scanner_create ;;
  if scanner =? NULL then raise (PyZbarError Could_not_create_decoder)
  else try_finally (body scanner)
         (call_ (zbar_image_scanner_destroy lib scanner)
                (Ev_scanner_destroy scanner)).

(** [ZBarSymbol(v).name] *)
Definition ZBarSymbol (v : Z) : M string :=
  match ZBarSymbol_name lib v with
  | Some name => ret name
  | None => raise (ValueError v)
  end.

(** Lines 118-126: [while symbol: ...; symbol = zbar_symbol_next(symbol)] *)
Fixpoint walk (symbol : symbol_p) (results : list Decoded)
  : M (list Decoded) :=
  match symbol with
  | [] => ret results
  | s :: next =>
      mem <- peek (fun _ => zbar_symbol_get_data s) (fun _ => Ev_symbol_read s) ;;
      let data := string_at mem in
      symbol_type <- ZBarSymbol (value s) ;;
      walk next (results ++ [mkDecoded data symbol_type])
  end.

(** Lines 74-128. *)
Definition decode (image : Image) : M (list Decoded) :=
  match unpack image with
  | (pixels, width, height) =>
      bpp <- lift (truediv (8 * len pixels) (width * height)) ;;
      if negb (Qeq_bool 8 bpp)
      then raise (PyZbarError (Unsupported_bits_per_pixel bpp))
      else
        let results := [] in
        zbar_image_scanner (fun scanner =>
          call (zbar_image_scanner_set_config lib scanner
                  (QRCODE lib) (CFG_ENABLE lib) 1)
               (fun _ => Ev_set_config scanner (QRCODE lib) (CFG_ENABLE lib) 1) ;;;
          call (zbar_image_scanner_set_config lib scanner
                  (CODE128 lib) (CFG_ENABLE lib) 1)
               (fun _ => Ev_set_config scanner (CODE128 lib) (CFG_ENABLE lib) 1) ;;;
          zbar_image (fun img =>
            fourcc <- match getitem FOURCC "L800" with
                      | Some v => ret v
                      | None => raise (KeyError "L800")
                      end ;;
            call_ (zbar_image_set_format lib img fourcc)
                  (Ev_set_format img fourcc) ;;;
            call_ (zbar_image_set_size lib img width height)
                  (Ev_set_size img width height) ;;;
            call_ (zbar_image_set_data lib img pixels (len pixels))
                  (Ev_set_data img (len pixels)) ;;;
            decoded <- call (zbar_scan_image lib scanner img)
                            (Ev_scan_image scanner img) ;;
            if decoded <? 0
            then raise (PyZbarError Unsupported_image_format)
            else
              symbol <- peek (zbar_image_first_symbol lib img)
                             (Ev_first_symbol img) ;;
              walk symbol results))
  end.

End Pyzbar.

Arguments M : clear implicits.

(** The three components of a finished computation. *)
Definition result_of {W A} (x : outcome A * W * trace) : outcome A := fst (fst x).
Definition world_of {W A} (x : outcome A * W * trace) : W := snd (fst x).
Definition trace_of {W A} (x : outcome A * W * trace) : trace := snd x.

(** ** Reading a trace *)

Definition is_NULL (h : handle) : bool := h =? NULL.

(** The handles the native library handed out, and those given back. *)
Fixpoint created_scanners (t : trace) : list handle :=
  match t with
  | [] => []
  | Ev_scanner_create h :: t' =>
      if is_NULL h then created_scanners t' else h :: created_scanners t'
  | _ :: t' => created_scanners t'
  end.

Fixpoint destroyed_scanners (t : trace) : list handle :=
  match t with
  | [] => []
  | Ev_scanner_destroy h :: t' => h :: destroyed_scanners t'
  | _ :: t' => destroyed_scanners t'
  end.

Fixpoint created_images (t : trace) : list handle :=
  match t with
  | [] => []
  | Ev_image_create h :: t' =>
      if is_NULL h then created_images t' else h :: created_images t'
  | _ :: t' => created_images t'
  end.

Fixpoint destroyed_images (t : trace) : list handle :=
  match t with
  | [] => []
  | Ev_image_destroy h :: t' => h :: destroyed_images t'
  | _ :: t' => destroyed_images t'
  end.

(** What the native library answered. *)
Definition scanner_refused (t : trace) : bool :=
  existsb (fun e => match e with Ev_scanner_create h => is_NULL h | _ => false end) t.

Definition image_refused (t : trace) : bool :=
  existsb (fun e => match e with Ev_image_create h => is_NULL h | _ => false end) t.

Definition scan_failed (t : trace) : bool :=
  existsb (fun e => match e with Ev_scan_image _ _ r => r <? 0 | _ => false end) t.

(** The symbol list the library reported for the image. *)
Fixpoint reported (t : trace) : symbol_p :=
  match t with
  | [] => []
  | Ev_first_symbol _ symbol :: t' => symbol ++ reported t'
  | _ :: t' => reported t'
  end.

(** The configuration calls made, as (symbology, config, value). *)
Fixpoint configured (t : trace) : list (Z * Z * Z) :=
  match t with
  | [] => []
  | Ev_set_config _ s c v :: t' => (s, c, v) :: configured t'
  | _ :: t' => configured t'
  end.

(** Handle discipline: a trace is well scoped from the live scanners [ls]
    and live images [li] when every call is made on a live handle, a handle
    is destroyed only while live, symbols are read only while an image is
    live, and nothing is left alive at the end. *)
Definition alive (h : handle) (l : list handle) : bool := existsb (Z.eqb h) l.

Fixpoint release (h : handle) (l : list handle) : list handle :=
  match l with
  | [] => []
  | x :: l' => if h =? x then l' else x :: release h l'
  end.

Fixpoint scoped (ls li : list handle) (t : trace) : bool :=
  match t with
  | [] => match ls, li with [], [] => true | _, _ => false end
  | Ev_scanner_create h :: t' =>
      if is_NULL h then scoped ls li t' else scoped (h :: ls) li t'
  | Ev_scanner_destroy h :: t' => alive h ls && scoped (release h ls) li t'
  | Ev_set_config h _ _ _ :: t' => alive h ls && scoped ls li t'
  | Ev_image_create h :: t' =>
      if is_NULL h then scoped ls li t' else scoped ls (h :: li) t'
  | Ev_image_destroy h :: t' => alive h li && scoped ls (release h li) t'
  | Ev_set_format h _ :: t' => alive h li && scoped ls li t'
  | Ev_set_size h _ _ :: t' => alive h li && scoped ls li t'
  | Ev_set_data h _ :: t' => alive h li && scoped ls li t'
  | Ev_scan_image s i _ :: t' => alive s ls && alive i li && scoped ls li t'
  | Ev_first_symbol i _ :: t' => alive i li && scoped ls li t'
  | Ev_symbol_read _ :: t' =>
      match li with [] => false | _ :: _ => scoped ls li t' end
  end.

(** ** A scripted native library

    A stand-in for zbar on which [decode] can be evaluated: the world is
    the number of allocations made so far, a successful allocation returns
    the next address, and the answers of the scan are fixed by a script. *)
Module Script.

Record script : Type := mkScript {
  scanner_ok : bool;
  image_ok : bool;
  scan_ret : Z;
  symbols : symbol_p
}.

(** The members of zbar's symbol enumeration ([zbar_symbol_type_t]). *)
Definition names : list (Z * string) :=
  [ (0, "NONE"); (1, "PARTIAL"); (2, "EAN2"); (5, "EAN5"); (8, "EAN8");
    (9, "UPCE"); (10, "ISBN10"); (12, "UPCA"); (13, "EAN13"); (14, "ISBN13");
    (15, "COMPOSITE"); (25, "I25"); (34, "DATABAR"); (35, "DATABAR_EXP");
    (38, "CODABAR"); (39, "CODE39"); (57, "PDF417"); (64, "QRCODE");
    (93, "CODE93"); (128, "CODE128") ]%string.

Fixpoint name_of (l : list (Z * string)) (v : Z) : option string :=
  match l with
  | [] => None
  | (k, n) :: l' => if k =? v then Some n else name_of l' v
  end.

Definition alloc (ok : bool) (w : Z) : handle * Z :=
  if ok then (w + 1, w + 1) else (NULL, w).

Definition lib (s : script) : wrapper Z :=
  {| QRCODE := 64;
     CODE128 := 128;
     CFG_ENABLE := 0;
     ZBarSymbol_name := name_of names;
     zbar_image_scanner_create := alloc (scanner_ok s);
     zbar_image_scanner_destroy := fun _ w => w;
     zbar_image_scanner_set_config := fun _ _ _ _ w => (0, w);
     zbar_image_create := alloc (image_ok s);
     zbar_image_destroy := fun _ w => w;
     zbar_image_set_format := fun _ _ w => w;
     zbar_image_set_size := fun _ _ _ w => w;
     zbar_image_set_data := fun _ _ _ w => w;
     zbar_scan_image := fun _ _ w => (scan_ret s, w);
     zbar_image_first_symbol := fun _ _ => symbols s |}.

(** A library on which everything succeeds and nothing is found. *)
Definition blank : script := mkScript true true 0 [].

End Script.

(** A 1x1 white image. *)
Definition white_1x1 : Image := Tuple [xff] 1 1.

(** Scripts: the scanner cannot be allocated; the scan reports failure;
    the same QR code is found twice; a QR code whose payload is the three
    octets 41 00 42. *)
Definition no_scanner : Script.script := Script.mkScript false true 0 [].

Definition scan_fails : Script.script := Script.mkScript true true (-1) [].

Definition QR_A : zbar_symbol := mkSymbol 64 [x41].

Definition same_code_twice : Script.script :=
  Script.mkScript true true 2 [QR_A; QR_A].

Definition QR_binary : zbar_symbol := mkSymbol 64 [x41; x00; x42].

Definition binary_payload : Script.script :=
  Script.mkScript true true 1 [QR_binary].

(** An EAN-13 symbol, a type that [decode] does not enable. *)
Definition EAN13_book : zbar_symbol :=
  mkSymbol 13 [x39; x37; x38; x30; x32; x36; x32; x30; x33; x33; x38; x33; x35].

Definition other_symbology : Script.script :=
  Script.mkScript true true 1 [EAN13_book].

(** ** The exit paths of [decode] *)

Definition pixels_of (image : Image) : bytes := fst (fst (unpack image)).
Definition width_of (image : Image) : Z := snd (fst (unpack image)).
Definition height_of (image : Image) : Z := snd (unpack image).

(** The input has the shape the module accepts: one octet per pixel. *)
Definition well_shaped (image : Image) : bool :=
  len (pixels_of image) =? width_of image * height_of image.

(** The entry [decode] appends for one symbol, when its type is a member
    of the enumeration. *)
Definition decoded_of {W} (lib : wrapper W) (s : zbar_symbol) : option Decoded :=
  match ZBarSymbol_name lib (value s) with
  | Some name => Some (mkDecoded (string_at (zbar_symbol_get_data s)) name)
  | None => None
  end.

(** The symbol's type is a member of the enumeration. *)
Definition known_type {W} (lib : wrapper W) (s : zbar_symbol) : bool :=
  match ZBarSymbol_name lib (value s) with Some _ => true | None => false end.

(** The calls made on a fresh scanner, and those that load the image. *)
Definition opened {W} (lib : wrapper W) (scanner : handle) : trace :=
  [ Ev_scanner_create scanner;
    Ev_set_config scanner (QRCODE lib) (CFG_ENABLE lib) 1;
    Ev_set_config scanner (CODE128 lib) (CFG_ENABLE lib) 1 ].

Definition loaded (image : Image) (img : handle) : trace :=
  [ Ev_image_create img;
    Ev_set_format img 808466521;
    Ev_set_size img (width_of image) (height_of image);
    Ev_set_data img (len (pixels_of image)) ].

Definition closed (scanner img : handle) : trace :=
  [ Ev_image_destroy img; Ev_scanner_destroy scanner ].

(** One constructor per way out of [decode]: the outcome and the native
    calls made on the way. *)
Inductive exit_path {W} (lib : wrapper W) (image : Image)
  : outcome (list Decoded) -> trace -> Prop :=
| exit_zero_division :
    width_of image * height_of image = 0 ->
    exit_path lib image (Raise ZeroDivisionError) []
| exit_bits_per_pixel :
    width_of image * height_of image <> 0 ->
    len (pixels_of image) <> width_of image * height_of image ->
    exit_path lib image
      (Raise (PyZbarError (Unsupported_bits_per_pixel
         (inject_Z (8 * len (pixels_of image))
          / inject_Z (width_of image * height_of image))%Q))) []
| exit_no_scanner :
    width_of image * height_of image <> 0 ->
    len (pixels_of image) = width_of image * height_of image ->
    exit_path lib image (Raise (PyZbarError Could_not_create_decoder))
      [Ev_scanner_create NULL]
| exit_no_image scanner :
    width_of image * height_of image <> 0 ->
    len (pixels_of image) = width_of image * height_of image ->
    scanner <> NULL ->
    exit_path lib image (Raise (PyZbarError Could_not_create_image))
      (opened lib scanner ++ [Ev_image_create NULL; Ev_scanner_destroy scanner])
| exit_scan_failed scanner img decoded :
    width_of image * height_of image <> 0 ->
    len (pixels_of image) = width_of image * height_of image ->
    scanner <> NULL -> img <> NULL -> decoded < 0 ->
    exit_path lib image (Raise (PyZbarError Unsupported_image_format))
      (opened lib scanner ++ loaded image img
       ++ [Ev_scan_image scanner img decoded] ++ closed scanner img)
| exit_unknown_type scanner img decoded before s after results :
    width_of image * height_of image <> 0 ->
    len (pixels_of image) = width_of image * height_of image ->
    scanner <> NULL -> img <> NULL -> 0 <= decoded ->
    map (decoded_of lib) before = map Some results ->
    ZBarSymbol_name lib (value s) = None ->
    exit_path lib image (Raise (ValueError (value s)))
      (opened lib scanner ++ loaded image img
       ++ [Ev_scan_image scanner img decoded;
           Ev_first_symbol img (before ++ s :: after)]
       ++ map Ev_symbol_read (before ++ [s]) ++ closed scanner img)
| exit_return scanner img decoded symbol results :
    width_of image * height_of image <> 0 ->
    len (pixels_of image) = width_of image * height_of image ->
    scanner <> NULL -> img <> NULL -> 0 <= decoded ->
    map (decoded_of lib) symbol = map Some results ->
    exit_path lib image (Return results)
      (opened lib scanner ++ loaded image img
       ++ [Ev_scan_image scanner img decoded; Ev_first_symbol img symbol]
       ++ map Ev_symbol_read symbol ++ closed scanner img).

(** ** What the native library is given, and in which order *)

(** The formats, the sizes and the buffer lengths handed to the library. *)
Fixpoint formats (t : trace) : list Z :=
  match t with
  | [] => []
  | Ev_set_format _ f :: t' => f :: formats t'
  | _ :: t' => formats t'
  end.

Fixpoint sizes (t : trace) : list (Z * Z) :=
  match t with
  | [] => []
  | Ev_set_size _ width height :: t' => (width, height) :: sizes t'
  | _ :: t' => sizes t'
  end.

Fixpoint data_lengths (t : trace) : list Z :=
  match t with
  | [] => []
  | Ev_set_data _ n :: t' => n :: data_lengths t'
  | _ :: t' => data_lengths t'
  end.

(** A call made on the NULL handle. *)
Definition on_NULL (e : event) : bool :=
  match e with
  | Ev_scanner_create _ | Ev_image_create _ | Ev_symbol_read _ => false
  | Ev_scanner_destroy h | Ev_set_config h _ _ _ | Ev_image_destroy h
  | Ev_set_format h _ | Ev_set_size h _ _ | Ev_set_data h _
  | Ev_first_symbol h _ => is_NULL h
  | Ev_scan_image s i _ => is_NULL s || is_NULL i
  end.

Definition passes_NULL (t : trace) : bool := existsb on_NULL t.

(** The stages a scanner and an image go through in one call. *)
Inductive scanner_stage : Type :=
| S_none | S_created | S_one_config | S_ready | S_refused | S_destroyed.

Inductive image_stage : Type :=
| I_none | I_created | I_format | I_size | I_data
| I_scanned | I_scan_failed | I_listed | I_refused | I_destroyed.

(** One native call: the stages after it, or [None] when the call is out
    of order. *)
Definition step (ss : scanner_stage) (si : image_stage) (e : event)
  : option (scanner_stage * image_stage) :=
  match e, ss, si with
  | Ev_scanner_create h, S_none, I_none =>
      Some (if is_NULL h then S_refused else S_created, I_none)
  | Ev_set_config _ _ _ _, S_created, I_none => Some (S_one_config, I_none)
  | Ev_set_config _ _ _ _, S_one_config, I_none => Some (S_ready, I_none)
  | Ev_image_create h, S_ready, I_none =>
      Some (S_ready, if is_NULL h then I_refused else I_created)
  | Ev_set_format _ _, S_ready, I_created => Some (S_ready, I_format)
  | Ev_set_size _ _ _, S_ready, I_format => Some (S_ready, I_size)
  | Ev_set_data _ _, S_ready, I_size => Some (S_ready, I_data)
  | Ev_scan_image _ _ r, S_ready, I_data =>
      Some (S_ready, if r <? 0 then I_scan_failed else I_scanned)
  | Ev_first_symbol _ _, S_ready, I_scanned => Some (S_ready, I_listed)
  | Ev_symbol_read _, S_ready, I_listed => Some (S_ready, I_listed)
  | Ev_image_destroy _, S_ready, I_scan_failed => Some (S_ready, I_destroyed)
  | Ev_image_destroy _, S_ready, I_listed => Some (S_ready, I_destroyed)
  | Ev_scanner_destroy _, S_ready, I_refused => Some (S_destroyed, I_refused)
  | Ev_scanner_destroy _, S_ready, I_destroyed => Some (S_destroyed, I_destroyed)
  | _, _, _ => None
  end.

(** The calls of a trace come in order, from the given stages to the end
    of a call. *)
Fixpoint in_order (ss : scanner_stage) (si : image_stage) (t : trace) : bool :=
  match t with
  | [] =>
      match ss, si with
      | S_none, I_none | S_refused, I_none
      | S_destroyed, I_refused | S_destroyed, I_destroyed => true
      | _, _ => false
      end
  | e :: t' =>
      match step ss si e with
      | Some (ss', si') => in_order ss' si' t'
      | None => false
      end
  end.

(** A byte sequence without a NUL octet. *)
Definition NUL_free (b : bytes) : bool := negb (existsb (Byte.eqb x00) b).

(** The first symbol of a chain whose type is not in the enumeration. *)
Definition first_unknown_type {W} (lib : wrapper W) (symbol : symbol_p)
  : option zbar_symbol :=
  find (fun s => negb (known_type lib s)) symbol.

(** Scripts: the image cannot be allocated; a symbol of a type outside the
    enumeration between two QR codes. *)
Definition no_image : Script.script := Script.mkScript true false 0 [].

Definition stray_type : Script.script :=
  Script.mkScript true true 3 [QR_A; mkSymbol 99 [x42]; QR_A].

(** A 2x1 image given with three octets per pixel. *)
Definition rgb_2x1 : Image := Tuple [xff; xff; xff; x00; x00; x00] 2 1.

(** ** The whole call (lines 74-128) *)

(** [decode] applied to an object of the documented kinds: lines 86-94
    raise on the arguments [read] refuses, before anything else is done. *)
Definition decode_call {W} (lib : wrapper W) (a : Argument) : M W (list Decoded) :=
  match read a with
  | Return image => decode lib image
  | Raise e => raise e
  end.

(** ** The native world after a call *)

Definition bytes_eqb (a b : bytes) : bool :=
  (List.length a =? List.length b)%nat
  && forallb (fun p => Byte.eqb (fst p) (snd p)) (combine a b).

Definition symbol_eqb (s1 s2 : zbar_symbol) : bool :=
  (value s1 =? value s2) && bytes_eqb (raw s1) (raw s2).

Definition symbol_p_eqb (l1 l2 : symbol_p) : bool :=
  (List.length l1 =? List.length l2)%nat
  && forallb (fun p => symbol_eqb (fst p) (snd p)) (combine l1 l2).

(** Performing one logged call on the native world: the world after it,
    or [None] when the library does not return what the log says.  The
    buffer handed to [zbar_image_set_data] is the one of the call. *)
Definition perform {W} (lib : wrapper W) (pixels : bytes) (e : event) (w : W)
  : option W :=
  match e with
  | Ev_scanner_create ret =>
      match zbar_image_scanner_create lib w with
      | (h, w') => if h =? ret then Some w' else None
      end
  | Ev_scanner_destroy h => Some (zbar_image_scanner_destroy lib h w)
  | Ev_set_config h symbology config val =>
      Some (snd (zbar_image_scanner_set_config lib h symbology config val w))
  | Ev_image_create ret =>
      match zbar_image_create lib w with
      | (h, w') => if h =? ret then Some w' else None
      end
  | Ev_image_destroy h => Some (zbar_image_destroy lib h w)
  | Ev_set_format h fourcc => Some (zbar_image_set_format lib h fourcc w)
  | Ev_set_size h width height => Some (zbar_image_set_size lib h width height w)
  | Ev_set_data h n => Some (zbar_image_set_data lib h pixels n w)
  | Ev_scan_image scanner img ret =>
      match zbar_scan_image lib scanner img w with
      | (r, w') => if r =? ret then Some w' else None
      end
  | Ev_first_symbol img ret =>
      if symbol_p_eqb (zbar_image_first_symbol lib img w) ret
      then Some w else None
  | Ev_symbol_read _ => Some w
  end.

(** Performing the calls of a log in order. *)
Fixpoint performed {W} (lib : wrapper W) (pixels : bytes) (t : trace) (w : W)
  : option W :=
  match t with
  | [] => Some w
  | e :: t' =>
      match perform lib pixels e w with
      | Some w' => performed lib pixels t' w'
      | None => None
      end
  end.

(** ** Libraries whose answers do not depend on their state *)


(** The world after an image has been given its format, size and data. *)
Definition load {W} (lib : wrapper W) (img : handle) (fourcc width height : Z)
    (pixels : bytes) (w : W) : W :=
  zbar_image_set_data lib img pixels (len pixels)
    (zbar_image_set_size lib img width height
       (zbar_image_set_format lib img fourcc w)).


(** ** Two more scripted libraries *)



(** A library that keeps track of the handles it has handed out and not
    yet got back: the world is the list of these handles, a creation hands
    out an address above all of them, a destruction takes the handle off
    the list. *)
Module Tracking.

Definition fresh (w : list handle) : handle := 1 + fold_right Z.max 0 w.

Definition create (ok : bool) (w : list handle) : handle * list handle :=
  if ok then (fresh w, fresh w :: w) else (NULL, w).

Definition lib (s : Script.script) : wrapper (list handle) :=
  {| QRCODE := 64;
     CODE128 := 128;
     CFG_ENABLE := 0;
     ZBarSymbol_name := Script.name_of Script.names;
     zbar_image_scanner_create := create (Script.scanner_ok s);
     zbar_image_scanner_destroy := release;
     zbar_image_scanner_set_config := fun _ _ _ _ w => (0, w);
     zbar_image_create := create (Script.image_ok s);
     zbar_image_destroy := release;
     zbar_image_set_format := fun _ _ w => w;
     zbar_image_set_size := fun _ _ _ w => w;
     zbar_image_set_data := fun _ _ _ w => w;
     zbar_scan_image := fun _ _ w => (Script.scan_ret s, w);
     zbar_image_first_symbol := fun _ _ => Script.symbols s |}.

End Tracking.


(** * Properties *)

(** ** The bits-per-pixel test *)

Lemma bpp_test (n d : Z) :
  d <> 0 ->
  (Qeq_bool 8 (inject_Z (8 * n) / inject_Z d) = true <-> n = d).
Proof.
  intros Hd. rewrite Qeq_bool_iff.
  remember (8 * n) as m eqn:Hm.
  unfold Qdiv, Qeq, Qmult, Qinv, inject_Z; cbn [Qnum Qden].
  destruct d as [|p|p]; [congruence| |]; cbn [Qnum Qden].
  - rewrite Pos2Z.inj_mul. split; intros H; [nia|subst; nia].
  - rewrite Pos2Z.inj_mul. split; intros H; [|subst; nia].
    assert (E : Z.neg p = - Z.pos p) by reflexivity. nia.
Qed.

Lemma truediv_zero (a : Z) : truediv a 0 = Raise ZeroDivisionError.
Proof. reflexivity. Qed.

Lemma truediv_nonzero (a b : Z) :
  b <> 0 -> truediv a b = Return (inject_Z a / inject_Z b)%Q.
Proof.
  intros Hb. unfold truediv. destruct (Z.eqb_spec b 0); [contradiction|reflexivity].
Qed.

(** ** [string_at] *)

Lemma string_at_app_NUL (pre post : bytes) :
  existsb (Byte.eqb x00) pre = false ->
  string_at (pre ++ x00 :: post) = pre.
Proof.
  induction pre as [|b pre IH]; simpl; intros H.
  - reflexivity.
  - apply orb_false_iff in H. destruct H as [Hb Hpre].
    destruct (Byte.eqb b x00) eqn:E.
    + apply Byte.byte_dec_bl in E. subst b. discriminate Hb.
    + now rewrite IH.
Qed.

Lemma string_at_prefix (mem : bytes) :
  exists rest, mem = string_at mem ++ rest.
Proof.
  induction mem as [|b mem [rest IH]]; simpl.
  - now exists [].
  - destruct (Byte.eqb b x00).
    + now exists (b :: mem).
    + exists rest. simpl. now rewrite <- IH.
Qed.

Lemma string_at_no_NUL (mem : bytes) :
  existsb (Byte.eqb x00) (string_at mem) = false.
Proof.
  induction mem as [|b mem IH]; simpl; [reflexivity|].
  destruct (Byte.eqb b x00) eqn:E; simpl; [reflexivity|].
  rewrite IH, orb_false_r.
  destruct (Byte.eqb x00 b) eqn:E'; [|reflexivity].
  apply Byte.byte_dec_bl in E'. subst b. discriminate E.
Qed.

(** ** The walk over the symbol list *)

Section Walk.

Context {W : Type} (lib : wrapper W).

Lemma walk_cons (s : zbar_symbol) (next : symbol_p) (results : list Decoded) (w : W) :
  walk lib (s :: next) results w
  = match ZBarSymbol_name lib (value s) with
    | Some name =>
        match walk lib next
                (results ++ [mkDecoded (string_at (zbar_symbol_get_data s)) name]) w
        with (r, w', t) => (r, w', Ev_symbol_read s :: t) end
    | None => (Raise (ValueError (value s)), w, [Ev_symbol_read s])
    end.
Proof.
  simpl. unfold bind at 1. unfold peek. unfold bind, ZBarSymbol.
  destruct (ZBarSymbol_name lib (value s)) as [name|]; simpl; [|reflexivity].
  destruct (walk lib next _ w) as [[r w'] t]. reflexivity.
Qed.

(** The walk leaves the native world as it found it, and either appends
    one entry per symbol, or stops at the first symbol whose type is not a
    member of the enumeration. *)
Lemma walk_spec (symbol : symbol_p) :
  forall (results : list Decoded) (w : W),
    world_of (walk lib symbol results w) = w /\
    ((exists l,
        map (decoded_of lib) symbol = map Some l /\
        result_of (walk lib symbol results w) = Return (results ++ l) /\
        trace_of (walk lib symbol results w) = map Ev_symbol_read symbol)
     \/
     (exists before s after l,
        symbol = before ++ s :: after /\
        map (decoded_of lib) before = map Some l /\
        ZBarSymbol_name lib (value s) = None /\
        result_of (walk lib symbol results w) = Raise (ValueError (value s)) /\
        trace_of (walk lib symbol results w)
        = map Ev_symbol_read (before ++ [s]))).
Proof.
  induction symbol as [|s next IH]; intros results w.
  - split; [reflexivity|]. left. exists []. simpl.
    rewrite app_nil_r. repeat split; reflexivity.
  - rewrite walk_cons.
    destruct (ZBarSymbol_name lib (value s)) as [name|] eqn:En.
    + specialize (IH (results ++ [mkDecoded (string_at (zbar_symbol_get_data s)) name]) w).
      destruct (walk lib next _ w) as [[r w'] t].
      unfold world_of, result_of, trace_of in *. simpl in *.
      destruct IH as [Hw [[l [Hl [Hr Ht]]] | [before [s0 [after [l [Hs [Hl [Hn [Hr Ht]]]]]]]]]].
      * split; [exact Hw|]. left.
        exists (mkDecoded (string_at (zbar_symbol_get_data s)) name :: l).
        repeat split.
        -- simpl. unfold decoded_of at 1. rewrite En. now rewrite Hl.
        -- rewrite Hr. now rewrite <- app_assoc.
        -- now rewrite Ht.
      * split; [exact Hw|]. right.
        exists (s :: before), s0, after,
               (mkDecoded (string_at (zbar_symbol_get_data s)) name :: l).
        repeat split.
        -- now rewrite Hs.
        -- simpl. unfold decoded_of at 1. rewrite En. now rewrite Hl.
        -- exact Hn.
        -- exact Hr.
        -- now rewrite Ht.
    + split; [reflexivity|]. right. exists [], s, next, [].
      repeat split; try reflexivity. exact En.
Qed.

End Walk.

(** ** Every call of [decode] leaves by one of the exit paths *)

Section Exit.

Context {W : Type} (lib : wrapper W).

Lemma decode_exit (image : Image) (w : W) :
  exit_path lib image (result_of (decode lib image w))
                      (trace_of (decode lib image w)).
Proof.
  destruct (decode lib image w) as [[r w'] t] eqn:E.
  unfold result_of, trace_of; cbn [fst snd].
  revert E. unfold decode.
  assert (Eu : unpack image = (pixels_of image, width_of image, height_of image)).
  { unfold pixels_of, width_of, height_of. now destruct (unpack image) as [[? ?] ?]. }
  rewrite Eu.
  destruct (Z.eq_dec (width_of image * height_of image) 0) as [Hz|Hz].
  { rewrite Hz. unfold bind, lift. rewrite truediv_zero.
    intros E; injection E as <- _ <-. now apply exit_zero_division. }
  unfold bind at 1. unfold lift. rewrite (truediv_nonzero _ _ Hz). cbv beta iota.
  destruct (Qeq_bool 8 _) eqn:Eb; cbn [negb]; cbv beta iota.
  2:{ unfold raise. intros E; injection E as <- _ <-.
      apply exit_bits_per_pixel; [exact Hz|].
      intros Hl. apply (bpp_test _ _ Hz) in Hl. congruence. }
  apply (bpp_test _ _ Hz) in Eb.
  unfold zbar_image_scanner. unfold bind at 1. unfold call at 1. cbv beta.
  destruct (zbar_image_scanner_create lib w) as [scanner w1].
  destruct (Z.eqb_spec scanner NULL) as [Hs|Hs].
  { subst scanner. unfold raise. cbn [app]. intros E; injection E as <- _ <-.
    now apply exit_no_scanner. }
  unfold try_finally, call_. unfold bind at 1. unfold call at 1. cbv beta.
  destruct (zbar_image_scanner_set_config lib scanner (QRCODE lib) _ _ w1) as [r1 w2].
  unfold bind at 1. unfold call at 1. cbv beta.
  destruct (zbar_image_scanner_set_config lib scanner (CODE128 lib) _ _ w2) as [r2 w3].
  unfold zbar_image. unfold bind at 1. unfold call at 1. cbv beta.
  destruct (zbar_image_create lib w3) as [img w4].
  destruct (Z.eqb_spec img NULL) as [Hi|Hi].
  { subst img. unfold raise. cbn [app]. intros E; injection E as <- _ <-.
    now apply (exit_no_image lib image scanner). }
  unfold try_finally, call_. simpl getitem. cbv beta iota.
  unfold bind at 1. unfold ret at 1. cbv beta iota.
  do 4 (unfold bind at 1; cbv beta iota). unfold call at 1. cbv beta.
  destruct (zbar_scan_image lib scanner img _) as [decoded w5].
  destruct (Z.ltb_spec decoded 0) as [Hd|Hd].
  { unfold raise. cbn [app]. intros E; injection E as <- _ <-.
    now apply (exit_scan_failed lib image scanner img decoded). }
  unfold bind at 1. unfold peek at 1. cbv beta iota.
  set (symbol := zbar_image_first_symbol lib img w5).
  destruct (walk_spec lib symbol [] w5) as [Hw Hcases].
  destruct (walk lib symbol [] w5) as [[r0 w6] t0].
  unfold result_of, trace_of, world_of in *. cbn [fst snd app] in *.
  intros E; injection E as <- _ <-.
  destruct Hcases as [[l [Hl [Hr Ht]]] | [before [s [after [l [Hsy [Hl [Hn [Hr Ht]]]]]]]]];
    subst r0 t0.
  + rewrite <- app_assoc.
    now apply (exit_return lib image scanner img decoded symbol l).
  + rewrite Hsy, <- app_assoc.
    now apply (exit_unknown_type lib image scanner img decoded before s after l).
Qed.

End Exit.

(** ** Reading the traces of the exit paths *)

Section Traces.

Local Arguments is_NULL : simpl never.

Lemma is_NULL_false (h : handle) : h <> NULL -> is_NULL h = false.
Proof. intros H. now apply Z.eqb_neq. Qed.

Lemma is_NULL_NULL : is_NULL NULL = true.
Proof. reflexivity. Qed.

Lemma created_scanners_reads l t :
  created_scanners (map Ev_symbol_read l ++ t) = created_scanners t.
Proof. induction l; simpl; auto. Qed.

Lemma destroyed_scanners_reads l t :
  destroyed_scanners (map Ev_symbol_read l ++ t) = destroyed_scanners t.
Proof. induction l; simpl; auto. Qed.

Lemma created_images_reads l t :
  created_images (map Ev_symbol_read l ++ t) = created_images t.
Proof. induction l; simpl; auto. Qed.

Lemma destroyed_images_reads l t :
  destroyed_images (map Ev_symbol_read l ++ t) = destroyed_images t.
Proof. induction l; simpl; auto. Qed.

Lemma scanner_refused_reads l t :
  scanner_refused (map Ev_symbol_read l ++ t) = scanner_refused t.
Proof. induction l; simpl; auto. Qed.

Lemma image_refused_reads l t :
  image_refused (map Ev_symbol_read l ++ t) = image_refused t.
Proof. induction l; simpl; auto. Qed.

Lemma scan_failed_reads l t :
  scan_failed (map Ev_symbol_read l ++ t) = scan_failed t.
Proof. induction l; simpl; auto. Qed.

Lemma reported_reads l t :
  reported (map Ev_symbol_read l ++ t) = reported t.
Proof. induction l; simpl; auto. Qed.

Lemma configured_reads l t :
  configured (map Ev_symbol_read l ++ t) = configured t.
Proof. induction l; simpl; auto. Qed.

Lemma scoped_reads ls i li l t :
  scoped ls (i :: li) (map Ev_symbol_read l ++ t) = scoped ls (i :: li) t.
Proof. induction l; simpl; auto. Qed.

End Traces.

Create Rewrite HintDb traces.

#[local] Hint Rewrite
  created_scanners_reads destroyed_scanners_reads created_images_reads
  destroyed_images_reads scanner_refused_reads image_refused_reads
  scan_failed_reads reported_reads configured_reads scoped_reads
  Z.eqb_refl app_nil_r : traces.

(** Case analysis on the exit path of a call, with the trace unfolded. *)
Ltac on_exit_path lib image w :=
  let r := fresh "r" in
  let t := fresh "t" in
  let Hr := fresh "Hr" in
  let Ht := fresh "Ht" in
  pose proof (decode_exit lib image w) as Hexit;
  remember (result_of (decode lib image w)) as r eqn:Hr;
  remember (trace_of (decode lib image w)) as t eqn:Ht;
  clear Hr Ht;
  destruct Hexit;
  unfold opened, loaded, closed;
  repeat match goal with
         | H : ?h <> NULL |- _ =>
             lazymatch goal with
             | _ : is_NULL h = false |- _ => fail
             | _ => pose proof (is_NULL_false h H)
             end
         | H : ?d < 0 |- _ =>
             lazymatch goal with
             | _ : (d <? 0) = true |- _ => fail
             | _ => pose proof (proj2 (Z.ltb_lt d 0) H)
             end
         | H : 0 <= ?d |- _ =>
             lazymatch goal with
             | _ : (d <? 0) = false |- _ => fail
             | _ => pose proof (proj2 (Z.ltb_ge d 0) H)
             end
         end.

Ltac read_trace_step :=
  cbn [app created_scanners destroyed_scanners created_images destroyed_images
       scanner_refused image_refused scan_failed reported configured scoped
       existsb alive release orb andb List.length];
  repeat match goal with
         | H : is_NULL _ = false |- _ => rewrite !H
         | H : (_ <? 0) = _ |- _ => rewrite !H
         end;
  rewrite ?is_NULL_NULL;
  autorewrite with traces.

Ltac read_trace := repeat (progress read_trace_step).

(** ** Evaluating [decode] *)

Example decode_white_1x1 :
  decode (Script.lib Script.blank) white_1x1 0
  = (Return [], 2,
     [Ev_scanner_create 1; Ev_set_config 1 64 0 1; Ev_set_config 1 128 0 1;
      Ev_image_create 2; Ev_set_format 2 808466521; Ev_set_size 2 1 1;
      Ev_set_data 2 1; Ev_scan_image 1 2 0; Ev_first_symbol 2 [];
      Ev_image_destroy 2; Ev_scanner_destroy 1]).
Proof. vm_compute. reflexivity. Qed.

Example decode_scan_fails :
  decode (Script.lib scan_fails) white_1x1 0
  = (Raise (PyZbarError Unsupported_image_format), 2,
     [Ev_scanner_create 1; Ev_set_config 1 64 0 1; Ev_set_config 1 128 0 1;
      Ev_image_create 2; Ev_set_format 2 808466521; Ev_set_size 2 1 1;
      Ev_set_data 2 1; Ev_scan_image 1 2 (-1);
      Ev_image_destroy 2; Ev_scanner_destroy 1]).
Proof. vm_compute. reflexivity. Qed.

Example decode_no_scanner :
  decode (Script.lib no_scanner) white_1x1 0
  = (Raise (PyZbarError Could_not_create_decoder), 0, [Ev_scanner_create 0]).
Proof. vm_compute. reflexivity. Qed.

Example decode_same_code_twice :
  result_of (decode (Script.lib same_code_twice) white_1x1 0)
  = Return [mkDecoded [x41] "QRCODE"; mkDecoded [x41] "QRCODE"].
Proof. vm_compute. reflexivity. Qed.

Example decode_binary_payload :
  result_of (decode (Script.lib binary_payload) white_1x1 0)
  = Return [mkDecoded [x41] "QRCODE"].
Proof. vm_compute. reflexivity. Qed.

(** ** The shape test (lines 96-99) *)

Section Shape.

Context {W : Type} (lib : wrapper W).

(** X5: a buffer of the wrong length is refused before any native call, as
    long as the declared area is not zero: PyZbarError for its bits per
    pixel, a value that is not 8, the native world untouched. *)
Lemma decode_shape_mismatch (image : Image) (w : W) :
  width_of image * height_of image <> 0 ->
  well_shaped image = false ->
  exists bpp,
    decode lib image w
    = (Raise (PyZbarError (Unsupported_bits_per_pixel bpp)), w, []) /\
    ~ (bpp == 8)%Q.
Proof.
  intros Hz Hs. unfold well_shaped in Hs. apply Z.eqb_neq in Hs.
  exists (inject_Z (8 * len (pixels_of image))
          / inject_Z (width_of image * height_of image))%Q.
  assert (Eb : Qeq_bool 8 (inject_Z (8 * len (pixels_of image))
                           / inject_Z (width_of image * height_of image))
               = false).
  { destruct (Qeq_bool 8 _) eqn:Eb; [|reflexivity].
    apply (bpp_test _ _ Hz) in Eb. contradiction. }
  split.
  - unfold decode.
    assert (Eu : unpack image = (pixels_of image, width_of image, height_of image)).
    { unfold pixels_of, width_of, height_of.
      now destruct (unpack image) as [[? ?] ?]. }
    rewrite Eu. unfold bind, lift. rewrite (truediv_nonzero _ _ Hz).
    now rewrite Eb.
  - intros E. apply Qeq_sym in E. apply Qeq_bool_iff in E. congruence.
Qed.

(** C9: whenever width * height is zero, computing the bits per pixel
    divides by zero: the call raises ZeroDivisionError, which is not a
    PyZbarError, before any native call is made. *)
Theorem decode_zero_area (image : Image) (w : W) :
  width_of image * height_of image = 0 ->
  decode lib image w = (Raise ZeroDivisionError, w, []) /\
  forall msg, result_of (decode lib image w) <> Raise (PyZbarError msg).
Proof.
  intros Hz.
  assert (E : decode lib image w = (Raise ZeroDivisionError, w, [])).
  { unfold decode.
    assert (Eu : unpack image = (pixels_of image, width_of image, height_of image)).
    { unfold pixels_of, width_of, height_of.
      now destruct (unpack image) as [[? ?] ?]. }
    rewrite Eu, Hz. reflexivity. }
  split; [exact E|]. intros msg. rewrite E. discriminate.
Qed.

(** C1: a one-octet buffer declared as 0 x 0 has the wrong length, yet the
    call does not fail with PyZbarError: it raises ZeroDivisionError. *)
Theorem decode_mismatch_zero_area (w : W) :
  well_shaped (Tuple [x00] 0 0) = false /\
  decode lib (Tuple [x00] 0 0) w = (Raise ZeroDivisionError, w, []).
Proof. split; reflexivity. Qed.

End Shape.

Lemma decode_zero_area_witness :
  width_of (Tuple [] 0 5) * height_of (Tuple [] 0 5) = 0 /\
  decode (Script.lib Script.blank) (Tuple [] 0 5) 0
  = (Raise ZeroDivisionError, 0, []).
Proof.
  split; [reflexivity|].
  apply (decode_zero_area (Script.lib Script.blank) (Tuple [] 0 5) 0).
  reflexivity.
Defined.

(** ** Handle lifetimes (lines 28-71, 102-127) *)

Section Handles.

Context {W : Type} (lib : wrapper W).

(** Every call is made on a handle that is alive, and no handle outlives
    the call. *)
Lemma decode_scoped (image : Image) (w : W) :
  scoped [] [] (trace_of (decode lib image w)) = true.
Proof.
  on_exit_path lib image w; read_trace; reflexivity.
Qed.

(** The configuration calls of a call that obtained a scanner. *)
Lemma decode_configured (image : Image) (w : W) :
  configured (trace_of (decode lib image w))
  = match created_scanners (trace_of (decode lib image w)) with
    | [] => []
    | _ :: _ => [ (QRCODE lib, CFG_ENABLE lib, 1);
                  (CODE128 lib, CFG_ENABLE lib, 1) ]
    end.
Proof.
  on_exit_path lib image w; read_trace; reflexivity.
Qed.

(** C7 as the code has it: [decode] takes the image and nothing else; when
    it obtains a scanner it enables QRCODE and then CODE128 on it, and it
    makes no other configuration call. *)
Theorem decode_fixed_configuration (image : Image) (w : W) :
  configured (trace_of (decode lib image w))
  = match created_scanners (trace_of (decode lib image w)) with
    | [] => []
    | _ :: _ => [ (QRCODE lib, CFG_ENABLE lib, 1);
                  (CODE128 lib, CFG_ENABLE lib, 1) ]
    end.
Proof. apply decode_configured. Qed.

(** The entries returned are those of the symbols reported in this call,
    one per symbol and in the order of the library's list. *)
Lemma decode_entries (image : Image) (w : W) :
  match result_of (decode lib image w) with
  | Return results =>
      map Some results
      = map (decoded_of lib) (reported (trace_of (decode lib image w)))
  | Raise _ => True
  end.
Proof.
  on_exit_path lib image w; read_trace; auto.
Qed.

End Handles.

(** ** Outcomes (lines 96-128) *)

Section Outcomes.

Context {W : Type} (lib : wrapper W).

Lemma map_Some_inj {A} (l1 l2 : list A) : map Some l1 = map Some l2 -> l1 = l2.
Proof.
  revert l2. induction l1 as [|a l1 IH]; intros [|b l2] H;
    try discriminate; [reflexivity|].
  simpl in H. injection H as -> H. now rewrite (IH _ H).
Qed.

Lemma all_known (symbol : symbol_p) (results : list Decoded) :
  map (decoded_of lib) symbol = map Some results ->
  forallb (known_type lib) symbol = true.
Proof.
  revert results. induction symbol as [|s symbol IH]; intros [|d results] H;
    try discriminate; [reflexivity|].
  simpl in H. injection H as Hs H. simpl. rewrite (IH _ H), andb_true_r.
  unfold decoded_of in Hs. unfold known_type.
  now destruct (ZBarSymbol_name lib (value s)).
Qed.

Lemma unknown_not_known (before after : symbol_p) (s : zbar_symbol) :
  ZBarSymbol_name lib (value s) = None ->
  forallb (known_type lib) (before ++ s :: after) = false.
Proof.
  intros H. rewrite forallb_app. simpl. unfold known_type at 2. rewrite H.
  now rewrite andb_false_r.
Qed.

(** C2 as the code has it: on a buffer of the right length for a declared
    area that is not zero, if the library hands out both handles, the scan
    does not report failure and no symbol is reported, [decode] returns
    the empty list. *)
Theorem decode_nothing_found (image : Image) (w : W) :
  width_of image * height_of image <> 0 ->
  well_shaped image = true ->
  scanner_refused (trace_of (decode lib image w)) = false ->
  image_refused (trace_of (decode lib image w)) = false ->
  scan_failed (trace_of (decode lib image w)) = false ->
  reported (trace_of (decode lib image w)) = [] ->
  result_of (decode lib image w) = Return [].
Proof.
  unfold well_shaped. rewrite Z.eqb_eq.
  on_exit_path lib image w; read_trace; intros Hz Hs Hr1 Hr2 Hf Hrep;
    try contradiction; try discriminate.
  - now destruct before.
  - subst symbol. destruct results; [reflexivity|discriminate].
Qed.

(** C4 as the code has it: a call that returns gives one entry per symbol
    of the library's list, in the order of that list, duplicates included:
    the data is what [string_at] reads at the symbol's data pointer and the
    type is the name of the symbol's type in the enumeration. *)
Theorem decode_one_entry_per_symbol (image : Image) (w : W) (results : list Decoded) :
  result_of (decode lib image w) = Return results ->
  map Some results
  = map (decoded_of lib) (reported (trace_of (decode lib image w))).
Proof.
  intros H. pose proof (decode_entries lib image w) as E.
  now rewrite H in E.
Qed.

End Outcomes.

(** ** The data of an entry (lines 119-124) *)

Section Data.

Context {W : Type} (lib : wrapper W).

(** The data of an entry is the symbol's payload up to its first NUL
    octet: all of it exactly when the payload holds no NUL. *)
Lemma decoded_data (s : zbar_symbol) (d : Decoded) :
  decoded_of lib s = Some d ->
  ZBarSymbol_name lib (value s) = Some (type d) /\
  (exists rest, raw s ++ [x00] = data d ++ rest) /\
  existsb (Byte.eqb x00) (data d) = false /\
  (existsb (Byte.eqb x00) (raw s) = false -> data d = raw s).
Proof.
  unfold decoded_of, zbar_symbol_get_data.
  destruct (ZBarSymbol_name lib (value s)) as [name|]; [|discriminate].
  intros E. injection E as <-. simpl.
  repeat split.
  - apply string_at_prefix.
  - apply string_at_no_NUL.
  - intros H. now apply string_at_app_NUL.
Qed.

End Data.

(** C5: a QR symbol whose payload is the three octets 41 00 42 comes back
    with the one octet 41 as its data: the payload is cut at its first NUL,
    although the library holds three octets for it. *)
Theorem decode_truncates_at_NUL :
  result_of (decode (Script.lib binary_payload) white_1x1 0)
  = Return [mkDecoded [x41] "QRCODE"] /\
  reported (trace_of (decode (Script.lib binary_payload) white_1x1 0))
  = [mkSymbol 64 [x41; x00; x42]] /\
  zbar_symbol_get_data_length (mkSymbol 64 [x41; x00; x42]) = 3.
Proof. vm_compute. repeat split; reflexivity. Qed.

(** The type of an entry is whatever type the library reports, enabled by
    [decode] or not. *)
Example decode_other_symbology :
  result_of (decode (Script.lib other_symbology) white_1x1 0)
  = Return [mkDecoded
              [x39; x37; x38; x30; x32; x36; x32; x30; x33; x33; x38; x33; x35]
              "EAN13"].
Proof. vm_compute. reflexivity. Qed.

(** ** What the code does not guarantee, at concrete inputs *)

(** C2: the 1x1 image has the right length and no symbol is reported for
    it, yet the call raises, because the scan reports failure. *)
Lemma decode_nothing_found_may_raise :
  well_shaped white_1x1 = true /\
  reported (trace_of (decode (Script.lib scan_fails) white_1x1 0)) = [] /\
  result_of (decode (Script.lib scan_fails) white_1x1 0)
  = Raise (PyZbarError Unsupported_image_format) /\
  result_of (decode (Script.lib scan_fails) white_1x1 0) <> Return [].
Proof. vm_compute. repeat split; try reflexivity. discriminate. Qed.

(** C3: the 1x1 image has the right length, yet the call is aborted,
    because no scanner could be created. *)
Lemma decode_aborts_on_well_shaped_input :
  well_shaped white_1x1 = true /\
  result_of (decode (Script.lib no_scanner) white_1x1 0)
  = Raise (PyZbarError Could_not_create_decoder).
Proof. vm_compute. split; reflexivity. Qed.

(** C4: when the library reports the same QR code twice, the list returned
    holds the same (data, type) pair twice. *)
Lemma decode_keeps_duplicates :
  exists results,
    result_of (decode (Script.lib same_code_twice) white_1x1 0) = Return results /\
    ~ NoDup results.
Proof.
  exists [mkDecoded [x41] "QRCODE"; mkDecoded [x41] "QRCODE"].
  split; [vm_compute; reflexivity|].
  intros H. inversion H as [|d l Hin _]; subst. apply Hin. now left.
Qed.

(** C7: no argument of [decode] enables QRCODE alone: the caller cannot
    leave CODE128 out. *)
Lemma decode_cannot_enable_QRCODE_alone :
  ~ exists image w,
      configured (trace_of (decode (Script.lib Script.blank) image w))
      = [(64, 0, 1)].
Proof.
  intros [image [w H]]. rewrite decode_configured in H.
  destruct (created_scanners _); discriminate H.
Qed.

(** ** The theorems at concrete inputs *)

Lemma decode_nothing_found_witness :
  width_of white_1x1 * height_of white_1x1 <> 0 /\
  result_of (decode (Script.lib Script.blank) white_1x1 0) = Return [].
Proof.
  split; [vm_compute; discriminate|].
  apply (decode_nothing_found (Script.lib Script.blank) white_1x1 0);
    vm_compute; solve [reflexivity | discriminate].
Defined.

Lemma decode_one_entry_per_symbol_witness :
  result_of (decode (Script.lib same_code_twice) white_1x1 0)
  = Return [mkDecoded [x41] "QRCODE"; mkDecoded [x41] "QRCODE"] /\
  map Some [mkDecoded [x41] "QRCODE"; mkDecoded [x41] "QRCODE"]
  = map (decoded_of (Script.lib same_code_twice))
      (reported (trace_of (decode (Script.lib same_code_twice) white_1x1 0))).
Proof.
  split; [vm_compute; reflexivity|].
  apply (decode_one_entry_per_symbol (Script.lib same_code_twice) white_1x1 0).
  vm_compute; reflexivity.
Defined.


(** * Further properties of the module *)

(** ** The context managers (lines 28-71) *)

Section Managers.

Context {W : Type} (lib : wrapper W).

(** X1: when [zbar_image_create] gives a handle, the body of the [with]
    statement runs once on it, [zbar_image_destroy] is then called once on
    the same handle, whether the body returned or raised, and the outcome
    of the body is the outcome of the statement. *)
Theorem zbar_image_destroys {A : Type} (body : handle -> M W A)
    (w w1 w2 : W) (img : handle) (r : outcome A) (t : trace) :
  zbar_image_create lib w = (img, w1) ->
  img <> NULL ->
  body img w1 = (r, w2, t) ->
  zbar_image lib body w
  = (r, zbar_image_destroy lib img w2,
     Ev_image_create img :: t ++ [Ev_image_destroy img]).
Proof.
  intros Hc Hn Hb. unfold zbar_image, bind, call. rewrite Hc.
  apply Z.eqb_neq in Hn. rewrite Hn.
  unfold try_finally, call_. rewrite Hb. reflexivity.
Qed.

(** X2: when [zbar_image_create] gives NULL, the body is not entered,
    nothing is destroyed and PyZbarError is raised. *)
Theorem zbar_image_refused {A : Type} (body : handle -> M W A) (w w1 : W) :
  zbar_image_create lib w = (NULL, w1) ->
  zbar_image lib body w
  = (Raise (PyZbarError Could_not_create_image), w1, [Ev_image_create NULL]).
Proof.
  intros Hc. unfold zbar_image, bind, call. rewrite Hc. reflexivity.
Qed.

(** X3: the same for the scanner: the body runs once on the handle
    created, [zbar_image_scanner_destroy] is then called once on it,
    whether the body returned or raised, and the body's outcome is passed
    on. *)
Theorem zbar_image_scanner_destroys {A : Type} (body : handle -> M W A)
    (w w1 w2 : W) (scanner : handle) (r : outcome A) (t : trace) :
  zbar_image_scanner_create lib w = (scanner, w1) ->
  scanner <> NULL ->
  body scanner w1 = (r, w2, t) ->
  zbar_image_scanner lib body w
  = (r, zbar_image_scanner_destroy lib scanner w2,
     Ev_scanner_create scanner :: t ++ [Ev_scanner_destroy scanner]).
Proof.
  intros Hc Hn Hb. unfold zbar_image_scanner, bind, call. rewrite Hc.
  apply Z.eqb_neq in Hn. rewrite Hn.
  unfold try_finally, call_. rewrite Hb. reflexivity.
Qed.

(** X4: when [zbar_image_scanner_create] gives NULL, the body is not
    entered, nothing is destroyed and PyZbarError is raised. *)
Theorem zbar_image_scanner_refused {A : Type} (body : handle -> M W A) (w w1 : W) :
  zbar_image_scanner_create lib w = (NULL, w1) ->
  zbar_image_scanner lib body w
  = (Raise (PyZbarError Could_not_create_decoder), w1, [Ev_scanner_create NULL]).
Proof.
  intros Hc. unfold zbar_image_scanner, bind, call. rewrite Hc. reflexivity.
Qed.

End Managers.

Lemma zbar_image_destroys_witness :
  zbar_image (Script.lib Script.blank)
    (fun _ : handle => @raise Z unit (ValueError 7)) 0
  = (Raise (ValueError 7), 1, [Ev_image_create 1; Ev_image_destroy 1]).
Proof.
  apply (zbar_image_destroys (Script.lib Script.blank)
           (fun _ : handle => @raise Z unit (ValueError 7)) 0 1 1 1
           (Raise (ValueError 7)) []).
  - reflexivity.
  - discriminate.
  - reflexivity.
Defined.

Lemma zbar_image_refused_witness :
  zbar_image (Script.lib no_image) (fun _ : handle => @ret Z unit tt) 5
  = (Raise (PyZbarError Could_not_create_image), 5, [Ev_image_create NULL]).
Proof.
  apply (zbar_image_refused (Script.lib no_image)
           (fun _ : handle => @ret Z unit tt) 5 5).
  reflexivity.
Defined.

Lemma zbar_image_scanner_destroys_witness :
  zbar_image_scanner (Script.lib Script.blank)
    (fun _ : handle => @raise Z unit (ValueError 7)) 0
  = (Raise (ValueError 7), 1, [Ev_scanner_create 1; Ev_scanner_destroy 1]).
Proof.
  apply (zbar_image_scanner_destroys (Script.lib Script.blank)
           (fun _ : handle => @raise Z unit (ValueError 7)) 0 1 1 1
           (Raise (ValueError 7)) []).
  - reflexivity.
  - discriminate.
  - reflexivity.
Defined.

Lemma zbar_image_scanner_refused_witness :
  zbar_image_scanner (Script.lib no_scanner) (fun _ : handle => @ret Z unit tt) 5
  = (Raise (PyZbarError Could_not_create_decoder), 5, [Ev_scanner_create NULL]).
Proof.
  apply (zbar_image_scanner_refused (Script.lib no_scanner)
           (fun _ : handle => @ret Z unit tt) 5 5).
  reflexivity.
Defined.

(** ** The shape test, further (lines 94-99) *)

Section ShapeTest.

Context {W : Type} (lib : wrapper W).

(** X6: the native library is reached exactly by the buffers that hold one
    octet per pixel of a declared area that is not zero: the call makes no
    native call if and only if width * height is zero or differs from the
    length of the buffer. *)
Theorem decode_reaches_library_iff (image : Image) (w : W) :
  trace_of (decode lib image w) = [] <->
  (width_of image * height_of image = 0 \/
   len (pixels_of image) <> width_of image * height_of image).
Proof.
  on_exit_path lib image w; cbn [app]; split; intros Hx;
    try discriminate; auto; destruct Hx; contradiction.
Qed.

(** X7: ZeroDivisionError is raised exactly when width * height is zero. *)
Theorem decode_ZeroDivisionError_iff (image : Image) (w : W) :
  result_of (decode lib image w) = Raise ZeroDivisionError <->
  width_of image * height_of image = 0.
Proof.
  on_exit_path lib image w; split; intros Hx;
    try discriminate; try contradiction; auto.
Qed.

(** X8: an empty buffer never reaches the native library: the call raises
    ZeroDivisionError when the declared area is zero, and otherwise
    PyZbarError for zero bits per pixel. *)
Theorem decode_empty_buffer (image : Image) (w : W) :
  pixels_of image = [] ->
  trace_of (decode lib image w) = [] /\
  ((width_of image * height_of image = 0 /\
    result_of (decode lib image w) = Raise ZeroDivisionError)
   \/
   (width_of image * height_of image <> 0 /\
    exists bpp,
      result_of (decode lib image w)
      = Raise (PyZbarError (Unsupported_bits_per_pixel bpp)) /\
      (bpp == 0)%Q)).
Proof.
  intros He.
  assert (Hl : len (pixels_of image) = 0) by now rewrite He.
  on_exit_path lib image w; try (exfalso; lia).
  - split; [reflexivity|]. left. auto.
  - split; [reflexivity|]. right. split; [assumption|].
    eexists. split; [reflexivity|].
    rewrite Hl. unfold Qdiv. simpl (inject_Z (8 * 0)). apply Qmult_0_l.
Qed.

(** X9: when the buffer holds k octets per pixel of a declared area that
    is not zero, k other than 1, the call raises PyZbarError and the value
    it reports is 8 k bits per pixel. *)
Theorem decode_reports_bits_per_pixel (image : Image) (w : W) (k : Z) :
  width_of image * height_of image <> 0 ->
  len (pixels_of image) = k * (width_of image * height_of image) ->
  k <> 1 ->
  exists bpp,
    result_of (decode lib image w)
    = Raise (PyZbarError (Unsupported_bits_per_pixel bpp)) /\
    (bpp == inject_Z (8 * k))%Q.
Proof.
  intros Hz Hk Hk1.
  on_exit_path lib image w; try contradiction; try (exfalso; nia).
  eexists. split; [reflexivity|].
  rewrite Hk.
  replace (8 * (k * (width_of image * height_of image)))
    with ((8 * k) * (width_of image * height_of image)) by ring.
  rewrite inject_Z_mult. apply Qdiv_mult_l.
  intros E. apply Hz.
  apply (proj1 (inject_Z_injective _ 0)). exact E.
Qed.

End ShapeTest.

Lemma decode_empty_buffer_witness :
  trace_of (decode (Script.lib Script.blank) (Tuple [] 2 2) 0) = [] /\
  ((width_of (Tuple [] 2 2) * height_of (Tuple [] 2 2) = 0 /\
    result_of (decode (Script.lib Script.blank) (Tuple [] 2 2) 0)
    = Raise ZeroDivisionError)
   \/
   (width_of (Tuple [] 2 2) * height_of (Tuple [] 2 2) <> 0 /\
    exists bpp,
      result_of (decode (Script.lib Script.blank) (Tuple [] 2 2) 0)
      = Raise (PyZbarError (Unsupported_bits_per_pixel bpp)) /\
      (bpp == 0)%Q)).
Proof.
  apply (decode_empty_buffer (Script.lib Script.blank) (Tuple [] 2 2) 0).
  reflexivity.
Defined.

Lemma decode_reports_bits_per_pixel_witness :
  exists bpp,
    result_of (decode (Script.lib Script.blank) rgb_2x1 0)
    = Raise (PyZbarError (Unsupported_bits_per_pixel bpp)) /\
    (bpp == inject_Z (8 * 3))%Q.
Proof.
  apply (decode_reports_bits_per_pixel (Script.lib Script.blank) rgb_2x1 0 3).
  - vm_compute; discriminate.
  - reflexivity.
  - discriminate.
Defined.

(** ** What the native library is given (lines 102-127) *)

Section Calls.

Local Arguments is_NULL : simpl never.

Lemma formats_reads l t : formats (map Ev_symbol_read l ++ t) = formats t.
Proof. induction l; simpl; auto. Qed.

Lemma sizes_reads l t : sizes (map Ev_symbol_read l ++ t) = sizes t.
Proof. induction l; simpl; auto. Qed.

Lemma data_lengths_reads l t :
  data_lengths (map Ev_symbol_read l ++ t) = data_lengths t.
Proof. induction l; simpl; auto. Qed.

Lemma passes_NULL_reads l t :
  passes_NULL (map Ev_symbol_read l ++ t) = passes_NULL t.
Proof. unfold passes_NULL. induction l; simpl; auto. Qed.

Lemma in_order_reads l t :
  in_order S_ready I_listed (map Ev_symbol_read l ++ t)
  = in_order S_ready I_listed t.
Proof. induction l; simpl; auto. Qed.

End Calls.

#[local] Hint Rewrite
  formats_reads sizes_reads data_lengths_reads passes_NULL_reads
  in_order_reads : traces.

Ltac read_calls_step :=
  cbn [app formats sizes data_lengths created_scanners created_images
       existsb on_NULL in_order step orb];
  repeat match goal with
         | H : is_NULL _ = false |- _ => rewrite !H
         | H : (_ <? 0) = _ |- _ => rewrite !H
         end;
  rewrite ?is_NULL_NULL;
  autorewrite with traces.

Ltac read_calls := repeat (progress read_calls_step).

Section Native.

Context {W : Type} (lib : wrapper W).

(** X10: a call that obtains an image gives it the format L800 once, the
    width and height as declared, once, and the buffer once, whose length
    is the product of that width and height; a call that obtains no image
    gives the library none of these. *)
Theorem decode_gives_declared_size (image : Image) (w : W) :
  match created_images (trace_of (decode lib image w)) with
  | [] =>
      formats (trace_of (decode lib image w)) = [] /\
      sizes (trace_of (decode lib image w)) = [] /\
      data_lengths (trace_of (decode lib image w)) = []
  | _ :: _ =>
      formats (trace_of (decode lib image w)) = [808466521] /\
      sizes (trace_of (decode lib image w))
      = [(width_of image, height_of image)] /\
      data_lengths (trace_of (decode lib image w))
      = [width_of image * height_of image]
  end.
Proof.
  on_exit_path lib image w; read_calls; repeat split; congruence.
Qed.

(** X11: a call that obtained a scanner and an image releases them in the
    reverse order, as its last two native calls: the image first, the
    scanner last. *)
Theorem decode_releases_in_reverse (image : Image) (w : W) (scanner img : handle) :
  created_scanners (trace_of (decode lib image w)) = [scanner] ->
  created_images (trace_of (decode lib image w)) = [img] ->
  exists before,
    trace_of (decode lib image w)
    = before ++ [Ev_image_destroy img; Ev_scanner_destroy scanner].
Proof.
  on_exit_path lib image w; read_calls; intros Hs Hi; try discriminate;
    injection Hs as ->; injection Hi as ->.
  - exists [Ev_scanner_create scanner;
            Ev_set_config scanner (QRCODE lib) (CFG_ENABLE lib) 1;
            Ev_set_config scanner (CODE128 lib) (CFG_ENABLE lib) 1;
            Ev_image_create img; Ev_set_format img 808466521;
            Ev_set_size img (width_of image) (height_of image);
            Ev_set_data img (len (pixels_of image));
            Ev_scan_image scanner img decoded].
    reflexivity.
  - exists ([Ev_scanner_create scanner;
             Ev_set_config scanner (QRCODE lib) (CFG_ENABLE lib) 1;
             Ev_set_config scanner (CODE128 lib) (CFG_ENABLE lib) 1;
             Ev_image_create img; Ev_set_format img 808466521;
             Ev_set_size img (width_of image) (height_of image);
             Ev_set_data img (len (pixels_of image));
             Ev_scan_image scanner img decoded;
             Ev_first_symbol img (before ++ s :: after)]
            ++ map Ev_symbol_read (before ++ [s])).
    now rewrite <- app_assoc.
  - exists ([Ev_scanner_create scanner;
             Ev_set_config scanner (QRCODE lib) (CFG_ENABLE lib) 1;
             Ev_set_config scanner (CODE128 lib) (CFG_ENABLE lib) 1;
             Ev_image_create img; Ev_set_format img 808466521;
             Ev_set_size img (width_of image) (height_of image);
             Ev_set_data img (len (pixels_of image));
             Ev_scan_image scanner img decoded;
             Ev_first_symbol img symbol]
            ++ map Ev_symbol_read symbol).
    now rewrite <- app_assoc.
Qed.

(** X12: no native function is ever called on a NULL handle. *)
Theorem decode_never_passes_NULL (image : Image) (w : W) :
  passes_NULL (trace_of (decode lib image w)) = false.
Proof.
  on_exit_path lib image w; unfold passes_NULL at 1; read_calls;
    try reflexivity; unfold passes_NULL; read_calls; reflexivity.
Qed.

(** X13: the native calls of a call come in one order: the scanner is
    created and configured twice before an image is created; the image is
    given its format, its size and its data, in this order, before the one
    scan; the symbol list is asked for and read only after a scan that did
    not fail; the image is destroyed before the scanner; and a call that
    obtained a handle does not end before destroying it. *)
Theorem decode_calls_in_order (image : Image) (w : W) :
  in_order S_none I_none (trace_of (decode lib image w)) = true.
Proof.
  on_exit_path lib image w; read_calls; reflexivity.
Qed.

End Native.

Lemma decode_releases_in_reverse_witness :
  exists before,
    trace_of (decode (Script.lib same_code_twice) white_1x1 0)
    = before ++ [Ev_image_destroy 2; Ev_scanner_destroy 1].
Proof.
  apply (decode_releases_in_reverse (Script.lib same_code_twice) white_1x1 0 1 2);
    reflexivity.
Defined.

(** ** The entries returned (lines 117-126) *)

Section Entries.

Context {W : Type} (lib : wrapper W).

Lemma string_at_length (mem : bytes) :
  (List.length (string_at mem) <= List.length mem)%nat.
Proof.
  induction mem as [|b mem IH]; simpl; [lia|].
  destruct (Byte.eqb b x00); simpl; lia.
Qed.

(** X14: what [string_at] reads at the data pointer of a symbol is the
    whole payload if and only if the payload holds no NUL octet, and it is
    never longer than the payload. *)
Theorem string_at_whole_iff (s : zbar_symbol) :
  (string_at (zbar_symbol_get_data s) = raw s <-> NUL_free (raw s) = true) /\
  len (string_at (zbar_symbol_get_data s)) <= zbar_symbol_get_data_length s.
Proof.
  unfold zbar_symbol_get_data, zbar_symbol_get_data_length, NUL_free, len.
  split.
  - split; intros H.
    + rewrite <- H at 1. now rewrite string_at_no_NUL.
    + apply string_at_app_NUL. now destruct (existsb _ (raw s)).
  - destruct (string_at_prefix (raw s ++ [x00])) as [rest Hrest].
    assert (Hn : existsb (Byte.eqb x00) (string_at (raw s ++ [x00])) = false)
      by apply string_at_no_NUL.
    pose proof (string_at_length (raw s ++ [x00])) as Hle.
    rewrite length_app in Hle. simpl in Hle.
    destruct (Nat.eq_dec (List.length (string_at (raw s ++ [x00])))
                         (List.length (raw s) + 1)) as [E|E]; [|lia].
    exfalso.
    assert (Hr : rest = []).
    { apply (f_equal (@List.length byte)) in Hrest.
      rewrite !length_app in Hrest. simpl in Hrest.
      destruct rest; [reflexivity|simpl in Hrest; lia]. }
    subst rest. rewrite app_nil_r in Hrest. rewrite <- Hrest in Hn.
    rewrite existsb_app in Hn. simpl in Hn.
    now rewrite orb_true_r in Hn.
Qed.

Lemma entries_NUL_free (symbol : symbol_p) (results : list Decoded) :
  map (decoded_of lib) symbol = map Some results ->
  forallb (fun d => NUL_free (data d)) results = true.
Proof.
  revert results. induction symbol as [|s symbol IH]; intros [|d results] H;
    try discriminate; [reflexivity|].
  simpl in H. injection H as Hs H. simpl. rewrite (IH _ H), andb_true_r.
  destruct (decoded_data lib s d Hs) as [_ [_ [Hn _]]].
  unfold NUL_free. now rewrite Hn.
Qed.

Lemma entries_whole (symbol : symbol_p) (results : list Decoded) :
  map (decoded_of lib) symbol = map Some results ->
  forallb (fun s => NUL_free (raw s)) symbol = true ->
  map data results = map raw symbol.
Proof.
  revert results. induction symbol as [|s symbol IH]; intros [|d results] H F;
    try discriminate; [reflexivity|].
  simpl in H. injection H as Hs H. simpl in F. apply andb_prop in F.
  destruct F as [Fs F]. simpl. rewrite (IH _ H F). f_equal.
  destruct (decoded_data lib s d Hs) as [_ [_ [_ Hw]]].
  apply Hw. unfold NUL_free in Fs. now destruct (existsb _ (raw s)).
Qed.

(** X15: no entry returned holds a NUL octet in its data. *)
Theorem decode_data_has_no_NUL (image : Image) (w : W) :
  match result_of (decode lib image w) with
  | Return results => forallb (fun d => NUL_free (data d)) results = true
  | Raise _ => True
  end.
Proof.
  on_exit_path lib image w; auto. eapply entries_NUL_free; eassumption.
Qed.

(** X16: when no payload reported holds a NUL octet, the data of the
    entries returned are the payloads, whole and in the library's order. *)
Theorem decode_whole_payloads (image : Image) (w : W) (results : list Decoded) :
  result_of (decode lib image w) = Return results ->
  forallb (fun s => NUL_free (raw s))
    (reported (trace_of (decode lib image w))) = true ->
  map data results = map raw (reported (trace_of (decode lib image w))).
Proof.
  on_exit_path lib image w; read_trace; intros Hr Hf; try discriminate.
  injection Hr as <-. now apply entries_whole.
Qed.

Lemma find_first_unknown (before after : symbol_p) (s : zbar_symbol)
    (results : list Decoded) :
  map (decoded_of lib) before = map Some results ->
  ZBarSymbol_name lib (value s) = None ->
  first_unknown_type lib (before ++ s :: after) = Some s.
Proof.
  intros Hb Hs. apply all_known in Hb. unfold first_unknown_type.
  induction before as [|x before IH]; simpl in *.
  - unfold known_type. now rewrite Hs.
  - apply andb_prop in Hb. destruct Hb as [Hx Hb]. rewrite Hx. simpl.
    now apply IH.
Qed.

Lemma find_all_known (symbol : symbol_p) (results : list Decoded) :
  map (decoded_of lib) symbol = map Some results ->
  first_unknown_type lib symbol = None.
Proof.
  intros H. apply all_known in H. unfold first_unknown_type.
  induction symbol as [|x symbol IH]; simpl in *; [reflexivity|].
  apply andb_prop in H. destruct H as [Hx H]. rewrite Hx. simpl.
  now apply IH.
Qed.

(** X17: the call raises ValueError exactly when a reported symbol has a
    type outside the enumeration, and the value it carries is the type of
    the first such symbol; the entries of the symbols before it are not
    returned. *)
Theorem decode_ValueError_iff (image : Image) (w : W) (v : Z) :
  result_of (decode lib image w) = Raise (ValueError v) <->
  option_map value
    (first_unknown_type lib (reported (trace_of (decode lib image w))))
  = Some v.
Proof.
  on_exit_path lib image w; read_trace;
    try (split; intros Hx; discriminate Hx).
  - erewrite find_first_unknown by eassumption. simpl.
    split; intros Hx; injection Hx as <-; reflexivity.
  - erewrite find_all_known by eassumption. simpl.
    split; intros Hx; discriminate Hx.
Qed.

End Entries.

Lemma decode_whole_payloads_witness :
  map data [mkDecoded [x41] "QRCODE"; mkDecoded [x41] "QRCODE"]
  = map raw (reported (trace_of (decode (Script.lib same_code_twice) white_1x1 0))).
Proof.
  apply (decode_whole_payloads (Script.lib same_code_twice) white_1x1 0);
    reflexivity.
Defined.

Example decode_stray_type :
  result_of (decode (Script.lib stray_type) white_1x1 0) = Raise (ValueError 99).
Proof. vm_compute. reflexivity. Qed.

Example decode_negative_size :
  trace_of (decode (Script.lib Script.blank) (Tuple [xff; xff] (-2) (-1)) 0)
  = [Ev_scanner_create 1; Ev_set_config 1 64 0 1; Ev_set_config 1 128 0 1;
     Ev_image_create 2; Ev_set_format 2 808466521; Ev_set_size 2 (-2) (-1);
     Ev_set_data 2 2; Ev_scan_image 1 2 0; Ev_first_symbol 2 [];
     Ev_image_destroy 2; Ev_scanner_destroy 1].
Proof. vm_compute. reflexivity. Qed.

Lemma decode_shape_mismatch_witness :
  exists bpp,
    decode (Script.lib Script.blank) rgb_2x1 7
    = (Raise (PyZbarError (Unsupported_bits_per_pixel bpp)), 7, []) /\
    ~ (bpp == 8)%Q.
Proof.
  apply (decode_shape_mismatch (Script.lib Script.blank) rgb_2x1 7).
  - vm_compute; discriminate.
  - reflexivity.
Defined.

(** * The native world across calls *)

(** ** A call on an accepted buffer, call by call *)

Section Run.

Context {W : Type} (lib : wrapper W).


(** The reads of the walk are reads of symbols of the chain. *)
Lemma walk_reads (symbol : symbol_p) (results : list Decoded) (w : W) :
  exists read_symbols,
    trace_of (walk lib symbol results w) = map Ev_symbol_read read_symbols.
Proof.
  destruct (walk_spec lib symbol results w)
    as [_ [[l [_ [_ Ht]]] | [before [s [after [l [_ [_ [_ [_ Ht]]]]]]]]]].
  - now exists symbol.
  - now exists (before ++ [s]).
Qed.

(** [decode] on a buffer of the right length for an area that is not zero,
    in terms of the answers of the library. *)
Lemma decode_accepted (image : Image) (w : W) :
  width_of image * height_of image <> 0 ->
  len (pixels_of image) = width_of image * height_of image ->
  decode lib image w
  = match zbar_image_scanner_create lib w with
    | (scanner, w1) =>
      if scanner =? NULL
      then (Raise (PyZbarError Could_not_create_decoder), w1,
            [Ev_scanner_create scanner])
      else
        match zbar_image_create lib
                (snd (zbar_image_scanner_set_config lib scanner
                        (CODE128 lib) (CFG_ENABLE lib) 1
                        (snd (zbar_image_scanner_set_config lib scanner
                                (QRCODE lib) (CFG_ENABLE lib) 1 w1))))
        with
        | (img, w4) =>
          if img =? NULL
          then (Raise (PyZbarError Could_not_create_image),
                zbar_image_scanner_destroy lib scanner w4,
                opened lib scanner
                ++ [Ev_image_create img; Ev_scanner_destroy scanner])
          else
            match zbar_scan_image lib scanner img
                    (load lib img 808466521 (width_of image) (height_of image)
                       (pixels_of image) w4)
            with
            | (decoded, w6) =>
              if decoded <? 0
              then (Raise (PyZbarError Unsupported_image_format),
                    zbar_image_scanner_destroy lib scanner
                      (zbar_image_destroy lib img w6),
                    opened lib scanner ++ loaded image img
                    ++ [Ev_scan_image scanner img decoded]
                    ++ closed scanner img)
              else (result_of (walk lib (zbar_image_first_symbol lib img w6) [] w6),
                    zbar_image_scanner_destroy lib scanner
                      (zbar_image_destroy lib img w6),
                    opened lib scanner ++ loaded image img
                    ++ [Ev_scan_image scanner img decoded;
                        Ev_first_symbol img (zbar_image_first_symbol lib img w6)]
                    ++ trace_of (walk lib (zbar_image_first_symbol lib img w6) [] w6)
                    ++ closed scanner img)
            end
        end
    end.
Proof.
  intros Hz Hl. unfold decode.
  assert (Eu : unpack image = (pixels_of image, width_of image, height_of image)).
  { unfold pixels_of, width_of, height_of. now destruct (unpack image) as [[? ?] ?]. }
  rewrite Eu.
  unfold bind at 1. unfold lift. rewrite (truediv_nonzero _ _ Hz). cbv beta iota.
  assert (Eb : Qeq_bool 8 (inject_Z (8 * len (pixels_of image))
                           / inject_Z (width_of image * height_of image)) = true)
    by now apply (bpp_test _ _ Hz).
  rewrite Eb. cbn [negb]. cbv beta iota.
  unfold zbar_image_scanner. unfold bind at 1. unfold call at 1. cbv beta.
  destruct (zbar_image_scanner_create lib w) as [scanner w1].
  destruct (scanner =? NULL) eqn:Hs.
  { unfold raise. reflexivity. }
  unfold try_finally, call_. unfold bind at 1. unfold call at 1. cbv beta.
  destruct (zbar_image_scanner_set_config lib scanner (QRCODE lib) _ _ w1) as [r1 w2].
  cbn [snd]. unfold bind at 1. unfold call at 1. cbv beta.
  destruct (zbar_image_scanner_set_config lib scanner (CODE128 lib) _ _ w2) as [r2 w3].
  cbn [snd].
  unfold zbar_image. unfold bind at 1. unfold call at 1. cbv beta.
  destruct (zbar_image_create lib w3) as [img w4].
  destruct (img =? NULL) eqn:Hi.
  { unfold raise. reflexivity. }
  unfold try_finally, call_. simpl getitem. cbv beta iota.
  unfold bind at 1. unfold ret at 1. cbv beta iota.
  do 4 (unfold bind at 1; cbv beta iota). unfold call at 1. cbv beta.
  unfold load.
  destruct (zbar_scan_image lib scanner img _) as [decoded w6].
  destruct (decoded <? 0) eqn:Hd.
  { unfold raise. reflexivity. }
  unfold bind at 1. unfold peek at 1. cbv beta iota.
  pose proof (walk_spec lib (zbar_image_first_symbol lib img w6) [] w6) as [Hw _].
  destruct (walk lib (zbar_image_first_symbol lib img w6) [] w6) as [[r0 w7] t0].
  unfold result_of, trace_of, world_of in *. cbn [fst snd] in *. subst w7.
  unfold opened, loaded, closed. cbn [app]. now rewrite <- app_assoc.
Qed.

End Run.

(** ** The world after a call is the world its logged calls produce *)

Section World.

Context {W : Type} (lib : wrapper W).

Lemma bytes_eqb_refl (b : bytes) : bytes_eqb b b = true.
Proof.
  unfold bytes_eqb. rewrite Nat.eqb_refl. simpl.
  induction b as [|x b IH]; simpl; [reflexivity|].
  rewrite IH, andb_true_r. now apply Byte.byte_dec_lb.
Qed.

Lemma symbol_p_eqb_refl (l : symbol_p) : symbol_p_eqb l l = true.
Proof.
  unfold symbol_p_eqb. rewrite Nat.eqb_refl. simpl.
  induction l as [|s l IH]; simpl; [reflexivity|].
  rewrite IH, andb_true_r. unfold symbol_eqb.
  now rewrite Z.eqb_refl, bytes_eqb_refl.
Qed.

Lemma performed_app (pixels : bytes) (t1 t2 : trace) (w : W) :
  performed lib pixels (t1 ++ t2) w
  = match performed lib pixels t1 w with
    | Some w' => performed lib pixels t2 w'
    | None => None
    end.
Proof.
  revert w. induction t1 as [|e t1 IH]; intros w; simpl; [reflexivity|].
  destruct (perform lib pixels e w) as [w'|]; [apply IH|reflexivity].
Qed.

Lemma performed_reads (pixels : bytes) (l : list zbar_symbol) (w : W) :
  performed lib pixels (map Ev_symbol_read l) w = Some w.
Proof. induction l as [|s l IH]; simpl; auto. Qed.

(** A buffer that fails the shape test is refused in the same way in
    every world, which it leaves as it is. *)
Lemma decode_rejected (image : Image) :
  (width_of image * height_of image = 0 \/
   len (pixels_of image) <> width_of image * height_of image) ->
  exists e, forall w : W, decode lib image w = (Raise e, w, []).
Proof.
  intros H.
  assert (Eu : unpack image = (pixels_of image, width_of image, height_of image)).
  { unfold pixels_of, width_of, height_of. now destruct (unpack image) as [[? ?] ?]. }
  destruct (Z.eq_dec (width_of image * height_of image) 0) as [Hz|Hz].
  - exists ZeroDivisionError. intros w. unfold decode. rewrite Eu, Hz.
    reflexivity.
  - destruct H as [H|H]; [contradiction|].
    exists (PyZbarError (Unsupported_bits_per_pixel
              (inject_Z (8 * len (pixels_of image))
               / inject_Z (width_of image * height_of image))%Q)).
    intros w. unfold decode. rewrite Eu. unfold bind, lift.
    rewrite (truediv_nonzero _ _ Hz).
    destruct (Qeq_bool 8 _) eqn:Eb; [|reflexivity].
    apply (bpp_test _ _ Hz) in Eb. contradiction.
Qed.

(** The native calls logged are the calls made: performing them in order
    from the world before the call gives the world after it. *)
Lemma decode_performed (image : Image) (w : W) :
  performed lib (pixels_of image) (trace_of (decode lib image w)) w
  = Some (world_of (decode lib image w)).
Proof.
  destruct (Z.eq_dec (width_of image * height_of image) 0) as [Hz|Hz].
  { destruct (decode_rejected image (or_introl Hz)) as [e He].
    now rewrite He. }
  destruct (Z.eq_dec (len (pixels_of image)) (width_of image * height_of image))
    as [Hl|Hl].
  2:{ destruct (decode_rejected image (or_intror Hl)) as [e He].
      now rewrite He. }
  rewrite (decode_accepted lib image w Hz Hl).
  destruct (zbar_image_scanner_create lib w) as [scanner w1] eqn:Ec.
  destruct (scanner =? NULL) eqn:Hs.
  { unfold trace_of, world_of. cbn [fst snd performed perform].
    now rewrite Ec, Z.eqb_refl. }
  destruct (zbar_image_create lib _) as [img w4] eqn:Ei.
  destruct (img =? NULL) eqn:Hi.
  { unfold trace_of, world_of, opened.
    cbn [fst snd app performed perform].
    now rewrite Ec, Z.eqb_refl, Ei, Z.eqb_refl. }
  destruct (zbar_scan_image lib scanner img _) as [decoded w6] eqn:Ed.
  unfold load in Ed.
  destruct (decoded <? 0) eqn:Hd.
  { unfold trace_of, world_of, opened, loaded, closed.
    cbn [fst snd app performed perform].
    now rewrite Ec, Z.eqb_refl, Ei, Z.eqb_refl, Ed, Z.eqb_refl. }
  destruct (walk_reads lib (zbar_image_first_symbol lib img w6) [] w6)
    as [reads Hreads].
  unfold trace_of, world_of, opened, loaded, closed in *.
  cbn [fst snd app performed perform].
  rewrite Ec, Z.eqb_refl, Ei, Z.eqb_refl, Ed, Z.eqb_refl.
  rewrite symbol_p_eqb_refl, Hreads, performed_app, performed_reads.
  reflexivity.
Qed.


End World.

(** ** Lifetimes, causes of failure and repeated calls *)

Section Calls_and_worlds.

Context {W : Type} (lib : wrapper W).

(** C10: on every exit path, the scanners destroyed are exactly the
    scanners created and the images destroyed exactly the images created,
    at most one of each; each destruction follows the creation and the
    last use of the handle; and the calls logged, the two destructions
    among them, are the calls made on the library: the world after the
    call is the world obtained by performing them in order. *)
Theorem decode_destroys_what_it_creates (image : Image) (w : W) :
  destroyed_scanners (trace_of (decode lib image w))
  = created_scanners (trace_of (decode lib image w)) /\
  destroyed_images (trace_of (decode lib image w))
  = created_images (trace_of (decode lib image w)) /\
  (List.length (created_scanners (trace_of (decode lib image w))) <= 1)%nat /\
  (List.length (created_images (trace_of (decode lib image w))) <= 1)%nat /\
  scoped [] [] (trace_of (decode lib image w)) = true /\
  performed lib (pixels_of image) (trace_of (decode lib image w)) w
  = Some (world_of (decode lib image w)).
Proof.
  split; [|split; [|split; [|split; [|split]]]];
    try apply decode_scoped; try apply decode_performed;
    on_exit_path lib image w; read_trace; auto.
Qed.

(** C3 as the code has it: a call on an array without a first channel
    raises IndexError, and a call on a tuple that does not have three
    items raises ValueError, both before anything else is done.  On every
    other argument of the documented kinds, for a declared area that is
    not zero, a call that raises does so for one of five reasons: the
    buffer length differs from width * height, the scanner or the image
    could not be created, the scan reported failure, or a reported symbol
    has a type outside the enumeration; a call that returns met none of
    them. *)
Theorem decode_abort_causes (a : Argument) (w : W) :
  (forall e, read a = Raise e ->
     decode_call lib a w = (Raise e, w, []) /\
     ((e = IndexError /\
       exists shape pixels,
         a = Arg_ndarray shape pixels /\ has_channel shape = false)
      \/
      (exists k, e = ValueError_unpack (items k) /\ a = Arg_other_tuple k)))
  /\
  (forall image, read a = Return image ->
     width_of image * height_of image <> 0 ->
     match result_of (decode_call lib a w) with
     | Raise e =>
         (well_shaped image = false /\
          exists bpp, e = PyZbarError (Unsupported_bits_per_pixel bpp))
         \/ (well_shaped image = true /\
             scanner_refused (trace_of (decode_call lib a w)) = true /\
             e = PyZbarError Could_not_create_decoder)
         \/ (well_shaped image = true /\
             image_refused (trace_of (decode_call lib a w)) = true /\
             e = PyZbarError Could_not_create_image)
         \/ (well_shaped image = true /\
             scan_failed (trace_of (decode_call lib a w)) = true /\
             e = PyZbarError Unsupported_image_format)
         \/ (well_shaped image = true /\
             exists s, In s (reported (trace_of (decode_call lib a w))) /\
                       ZBarSymbol_name lib (value s) = None /\
                       e = ValueError (value s))
     | Return _ =>
         well_shaped image = true /\
         scanner_refused (trace_of (decode_call lib a w)) = false /\
         image_refused (trace_of (decode_call lib a w)) = false /\
         scan_failed (trace_of (decode_call lib a w)) = false /\
         forallb (known_type lib) (reported (trace_of (decode_call lib a w))) = true
     end).
Proof.
  split.
  - intros e He. unfold decode_call. rewrite He. split; [reflexivity|].
    destruct a as [px sz|shape px|px wd ht|k]; simpl in He; try discriminate.
    + left. destruct shape as [|h [|wd rest]]; try (injection He as <-).
      * split; [reflexivity|]. now exists [], px.
      * split; [reflexivity|]. now exists [h], px.
      * destruct (has_channel (h :: wd :: rest)) eqn:Hc; [discriminate|].
        injection He as <-. split; [reflexivity|].
        now exists (h :: wd :: rest), px.
    + right. injection He as <-. now exists k.
  - intros image He. unfold decode_call. rewrite He. unfold well_shaped.
    on_exit_path lib image w; read_trace; intros Hz; try contradiction;
      try (assert (Hshape : (len (pixels_of image)
                             =? width_of image * height_of image) = true)
             by now apply Z.eqb_eq).
    + left. split; [now apply Z.eqb_neq|]. eexists. reflexivity.
    + right; left. auto.
    + right; right; left. auto.
    + right; right; right; left. auto.
    + right; right; right; right. split; [exact Hshape|].
      exists s. repeat split; auto. apply in_or_app. right. now left.
    + repeat split; auto. eapply all_known; eassumption.
Qed.



End Calls_and_worlds.

(** ** The library that keeps track of its handles *)

Lemma fresh_not_NULL (w : list handle) : (Tracking.fresh w =? NULL) = false.
Proof.
  apply Z.eqb_neq. unfold Tracking.fresh, NULL.
  assert (0 <= fold_right Z.max 0 w); [|lia].
  induction w as [|x w IH]; simpl; lia.
Qed.

Lemma release_head (h : handle) (w : list handle) : release h (h :: w) = w.
Proof. simpl. now rewrite Z.eqb_refl. Qed.

(** With the library that keeps track of its handles, every handle handed
    out during a call has been given back when the call ends, on every
    exit path: the list of handles out is what it was before the call. *)
Lemma decode_gives_back_every_handle (s : Script.script) (image : Image)
    (w : list handle) :
  world_of (decode (Tracking.lib s) image w) = w.
Proof.
  destruct (Z.eq_dec (width_of image * height_of image) 0) as [Hz|Hz].
  { destruct (decode_rejected (Tracking.lib s) image (or_introl Hz)) as [e He].
    now rewrite He. }
  destruct (Z.eq_dec (len (pixels_of image)) (width_of image * height_of image))
    as [Hl|Hl].
  2:{ destruct (decode_rejected (Tracking.lib s) image (or_intror Hl)) as [e He].
      now rewrite He. }
  rewrite (decode_accepted (Tracking.lib s) image w Hz Hl).
  unfold load. cbn [Tracking.lib zbar_image_scanner_create zbar_image_create
    zbar_image_scanner_set_config zbar_scan_image zbar_image_set_data
    zbar_image_set_size zbar_image_set_format zbar_image_scanner_destroy
    zbar_image_destroy zbar_image_first_symbol snd].
  unfold Tracking.create.
  destruct (Script.scanner_ok s); [|reflexivity].
  rewrite fresh_not_NULL.
  destruct (Script.image_ok s).
  - rewrite fresh_not_NULL.
    destruct (Script.scan_ret s <? 0); unfold world_of; cbn [fst snd];
      now rewrite !release_head.
  - unfold world_of. cbn [fst snd]. change (NULL =? NULL) with true.
    cbv iota. cbn [fst snd]. now rewrite release_head.
Qed.



(** ** A library whose answers depend on its state *)



(** ** These theorems at concrete inputs *)



Lemma decode_abort_causes_witness :
  decode_call (Script.lib Script.blank) (Arg_ndarray [1; 2] [xff; xff]) 0
  = (Raise IndexError, 0, []) /\
  decode_call (Script.lib Script.blank) (Arg_other_tuple two_items) 0
  = (Raise (ValueError_unpack 2), 0, []) /\
  match result_of (decode_call (Script.lib no_scanner) (Arg_tuple [xff] 1 1) 0) with
  | Raise e =>
      (well_shaped white_1x1 = false /\
       exists bpp, e = PyZbarError (Unsupported_bits_per_pixel bpp))
      \/ (well_shaped white_1x1 = true /\
          scanner_refused
            (trace_of (decode_call (Script.lib no_scanner) (Arg_tuple [xff] 1 1) 0))
          = true /\
          e = PyZbarError Could_not_create_decoder)
      \/ (well_shaped white_1x1 = true /\
          image_refused
            (trace_of (decode_call (Script.lib no_scanner) (Arg_tuple [xff] 1 1) 0))
          = true /\
          e = PyZbarError Could_not_create_image)
      \/ (well_shaped white_1x1 = true /\
          scan_failed
            (trace_of (decode_call (Script.lib no_scanner) (Arg_tuple [xff] 1 1) 0))
          = true /\
          e = PyZbarError Unsupported_image_format)
      \/ (well_shaped white_1x1 = true /\
          exists s,
            In s (reported
                    (trace_of (decode_call (Script.lib no_scanner)
                                 (Arg_tuple [xff] 1 1) 0))) /\
            ZBarSymbol_name (Script.lib no_scanner) (value s) = None /\
            e = ValueError (value s))
  | Return _ =>
      well_shaped white_1x1 = true /\
      scanner_refused
        (trace_of (decode_call (Script.lib no_scanner) (Arg_tuple [xff] 1 1) 0))
      = false /\
      image_refused
        (trace_of (decode_call (Script.lib no_scanner) (Arg_tuple [xff] 1 1) 0))
      = false /\
      scan_failed
        (trace_of (decode_call (Script.lib no_scanner) (Arg_tuple [xff] 1 1) 0))
      = false /\
      forallb (known_type (Script.lib no_scanner))
        (reported
           (trace_of (decode_call (Script.lib no_scanner) (Arg_tuple [xff] 1 1) 0)))
      = true
  end.
Proof.
  split; [|split].
  - apply (proj1 (decode_abort_causes (Script.lib Script.blank)
                    (Arg_ndarray [1; 2] [xff; xff]) 0) IndexError).
    reflexivity.
  - apply (proj1 (decode_abort_causes (Script.lib Script.blank)
                    (Arg_other_tuple two_items) 0) (ValueError_unpack 2)).
    reflexivity.
  - apply (proj2 (decode_abort_causes (Script.lib no_scanner)
                    (Arg_tuple [xff] 1 1) 0) white_1x1).
    + reflexivity.
    + vm_compute; discriminate.
Defined.

Example decode_gives_back_after_failed_scan :
  world_of (decode (Tracking.lib scan_fails) white_1x1 [7]) = [7].
Proof. vm_compute. reflexivity. Qed.
